(** * asl-recognizer: the training script's preprocessing, label encoding and split

    A shallow embedding of [train_model.py].  [normalize_landmarks] is
    written once, over the arithmetic of the array's entries, and read
    twice: with binary64 floating-point numbers, which is what numpy runs,
    and with real numbers, which is the exact arithmetic the algebra of the
    specification is about. *)

From Stdlib Require Import Floats.
From Stdlib Require Import String Ascii OrderedTypeEx.
From Stdlib Require Import Reals Lra Arith Lia ZArith QArith Qround.
From Stdlib Require Import List Sorted Permutation.
Import ListNotations.

Close Scope Q_scope.
Close Scope string_scope.
Close Scope float_scope.

(** ** Python results *)

(** The exceptions the modelled code can raise.  [ValueError] is what
    [ndarray.reshape] raises on a size that does not fit (the specification
    calls it InvalidShapeError); [IndexError] is [landmarks[0]] on an array
    without rows. *)
Inductive exn : Type :=
| ValueError
| IndexError
| UnknownLabelError
| InsufficientSamplesError.

Inductive result (A : Type) : Type :=
| Ok (a : A)
| Raise (e : exn).

Arguments Ok {A} a.
Arguments Raise {A} e.

Definition bind {A B : Type} (r : result A) (k : A -> result B) : result B :=
  match r with
  | Ok a => k a
  | Raise e => Raise e
  end.

Notation "x <- r ;; k" := (bind r (fun x => k))
  (at level 61, r at next level, right associativity).

(** ** normalize_landmarks *)

Module Normalizer.

(** The element-wise operations of numpy the function uses, by their
    ufunc names. *)
Class Number (num : Type) : Type := {
  np_zero : num;
  np_add : num -> num -> num;
  np_subtract : num -> num -> num;
  np_multiply : num -> num -> num;
  np_divide : num -> num -> num;
  np_sqrt : num -> num;
  np_maximum : num -> num -> num;
  np_greater : num -> num -> bool
}.

(** One row of the [(-1, 3)] array. *)
Definition vec3 (num : Type) : Type := (num * num * num)%type.

Section Generic.

Context {num : Type} {N : Number num}.

Definition vzero : vec3 num := (np_zero, np_zero, np_zero).

(** [np.array(flat_landmarks).reshape(-1, 3)] *)
Fixpoint reshape3 (flat : list num) : result (list (vec3 num)) :=
  match flat with
  | [] => Ok []
  | x :: y :: z :: rest =>
      match reshape3 rest with
      | Ok rows => Ok ((x, y, z) :: rows)
      | Raise e => Raise e
      end
  | _ => Raise ValueError
  end.

(** [landmarks.flatten()] *)
Definition flatten (rows : list (vec3 num)) : list num :=
  flat_map (fun p : vec3 num => let '(x, y, z) := p in [x; y; z]) rows.

(** Row-wise broadcast of [landmarks - wrist] and [landmarks / max_dist]. *)
Definition vsub (w p : vec3 num) : vec3 num :=
  let '(x, y, z) := p in
  let '(wx, wy, wz) := w in
  (np_subtract x wx, np_subtract y wy, np_subtract z wz).

Definition vdiv (d : num) (p : vec3 num) : vec3 num :=
  let '(x, y, z) := p in (np_divide x d, np_divide y d, np_divide z d).

(** One entry of [np.linalg.norm(landmarks, axis=1)]: the square root of
    [add.reduce] over the squares of a row, added from left to right. *)
Definition norm3 (p : vec3 num) : num :=
  let '(x, y, z) := p in
  np_sqrt (np_add (np_add (np_multiply x x) (np_multiply y y))
                  (np_multiply z z)).

(** [np.max] of an array with first entry [d]. *)
Definition np_max (d : num) (ds : list num) : num := fold_left np_maximum ds d.

(** Lines 18-19: [wrist = landmarks[0]; landmarks = landmarks - wrist]. *)
Definition center (landmarks : list (vec3 num)) : result (list (vec3 num)) :=
  match landmarks with
  | [] => Raise IndexError
  | wrist :: _ => Ok (map (vsub wrist) landmarks)
  end.

(** Line 20, on the centred rows. *)
Definition max_dist (landmarks : list (vec3 num)) : num :=
  match map norm3 landmarks with
  | [] => np_zero
  | d :: ds => np_max d ds
  end.

(** The guard of line 21, [max_dist > 0]. *)
Definition scales (landmarks : list (vec3 num)) : bool :=
  np_greater (max_dist landmarks) np_zero.

Definition normalize_landmarks (flat_landmarks : list num) : result (list num) :=
  landmarks <- reshape3 flat_landmarks ;;
  landmarks <- center landmarks ;;
  let max_dist := max_dist landmarks in
  let landmarks :=
    if scales landmarks then map (vdiv max_dist) landmarks else landmarks in
  Ok (flatten landmarks).

(** The per-landmark norms of a flat vector, as line 20 computes them. *)
Definition landmark_norms (flat : list num) : result (list num) :=
  rows <- reshape3 flat ;; Ok (map norm3 rows).


(** Landmark [i] of a flat vector: entries [3i], [3i+1], [3i+2]. *)
Definition landmark (flat : list num) (i : nat) : vec3 num :=
  (nth (3 * i) flat np_zero, nth (3 * i + 1) flat np_zero,
   nth (3 * i + 2) flat np_zero).

(** Adding one offset to every landmark of a flat vector. *)
Fixpoint translate (o : vec3 num) (flat : list num) : list num :=
  match flat with
  | x :: y :: z :: rest =>
      let '(ox, oy, oz) := o in
      np_add x ox :: np_add y oy :: np_add z oz :: translate o rest
  | _ => flat
  end.

End Generic.

(** What numpy computes: [float64] entries.  [np.maximum] keeps its first
    argument when it is at least the second or is NaN; a comparison with
    NaN is false. *)
#[export] Instance float64 : Number float := {|
  np_zero := 0%float;
  np_add := PrimFloat.add;
  np_subtract := PrimFloat.sub;
  np_multiply := PrimFloat.mul;
  np_divide := PrimFloat.div;
  np_sqrt := PrimFloat.sqrt;
  np_maximum := fun a b => if (PrimFloat.leb b a || PrimFloat.is_nan a)%bool then a else b;
  np_greater := fun a b => PrimFloat.ltb b a
|}.

(** The same operations without rounding. *)
#[export] Instance exact : Number R := {|
  np_zero := 0%R;
  np_add := Rplus;
  np_subtract := Rminus;
  np_multiply := Rmult;
  np_divide := Rdiv;
  np_sqrt := R_sqrt.sqrt;
  np_maximum := Rmax;
  np_greater := fun a b => if Rlt_dec b a then true else false
|}.

(** Entries that are numbers: neither NaN nor an infinity. *)
Definition finite (flat : list float) : bool := forallb PrimFloat.is_finite flat.

End Normalizer.

(** ** LabelVocabulary *)

Module LabelVocabulary.

(** The script obtains the vocabulary from scikit-learn's [LabelEncoder]
    ([fit_transform], [classes_]), whose code is not part of the
    repository.  A vocabulary is the ordered sequence of its labels, the
    index being the class id. *)

(** Modelled from the spec: the step of [fit] that files one label into
    the sorted distinct labels seen so far ([LabelEncoder] is missing). *)
Fixpoint insert_label (label : string) (classes : list string) : list string :=
  match classes with
  | [] => [label]
  | c :: rest =>
      match String.compare label c with
      | Lt => label :: classes
      | Eq => classes
      | Gt => c :: insert_label label rest
      end
  end.

(** Lexicographic order on labels, the order [String.compare] decides. *)
Definition lex_lt : string -> string -> Prop := String_as_OT.lt.

(** Modelled from the spec: [fit] of LabelVocabulary ([LabelEncoder.fit] is
    missing): collect the distinct labels, sorted, indices [0..C-1]. *)
Definition fit (labels : list string) : list string :=
  fold_right insert_label [] labels.

Fixpoint index_of (label : string) (classes : list string) : option nat :=
  match classes with
  | [] => None
  | c :: rest =>
      if String.eqb label c then Some 0%nat
      else option_map S (index_of label rest)
  end.

(** Modelled from the spec: [encode] of LabelVocabulary
    ([LabelEncoder.transform] is missing); a label that was not fitted fails
    with UnknownLabelError. *)
Definition encode (classes : list string) (label : string) : result nat :=
  match index_of label classes with
  | Some i => Ok i
  | None => Raise UnknownLabelError
  end.

(** Modelled from the spec: [decode] of LabelVocabulary
    ([LabelEncoder.inverse_transform] is missing): the label at index [i]. *)
Definition decode (classes : list string) (i : nat) : result string :=
  match nth_error classes i with
  | Some label => Ok label
  | None => Raise ValueError
  end.

End LabelVocabulary.

(** ** SplitStrategy *)

(** The script calls scikit-learn's [train_test_split] with
    [test_size=0.2], [random_state=42] and [stratify=y_encoded]; that
    function is not part of the repository.  The definitions of this
    section follow the specification's SplitStrategy, and where it only
    says "stratified, within rounding" they compute the way that library's
    stratified shuffle split does: per-class shares rounded down, the rest
    handed out by largest remainder, rows drawn by permutations from a
    generator seeded with [seed]. *)

Section SplitStrategy.

(** The pseudo-random generator: its state, seeding, and the draw of a
    permutation of [0..n-1], which returns the advanced state. *)
Variable rng : Type.
Variable RandomState : Z -> rng.
Variable rng_permutation : nat -> rng -> list nat * rng.

(** The rows' feature vectors. *)
Variable A : Type.

(** The distinct values of [y] in increasing order. *)
Definition classes (y : list nat) : list nat :=
  filter (fun c => existsb (Nat.eqb c) y) (seq 0 (S (list_max y))).

Definition class_counts (y : list nat) : list nat :=
  map (count_occ Nat.eq_dec y) (classes y).

(** Where [l] holds [v], in increasing order. *)
Definition positions (v : nat) (l : list nat) : list nat :=
  filter (fun j => nth j l 0%nat =? v)%nat (seq 0 (length l)).

Definition class_indices (y : list nat) : list (list nat) :=
  map (fun c => positions c y) (classes y).

(** [l[idx]] on index lists and on rows. *)
Definition take (l idx : list nat) : list nat :=
  map (fun i => nth i l 0%nat) idx.

Definition select {B : Type} (rows : list B) (idx : list nat) : list B :=
  flat_map (fun i => match nth_error rows i with
                     | Some x => [x]
                     | None => []
                     end) idx.

(** A shuffled copy of [l], and [size] entries of [l] drawn without
    replacement. *)
Definition shuffle (l : list nat) (g : rng) : list nat * rng :=
  let (p, g) := rng_permutation (length l) g in (take l p, g).

Definition choice (l : list nat) (size : nat) (g : rng) : list nat * rng :=
  let (p, g) := rng_permutation (length l) g in (take l (firstn size p), g).

(** One more for the entries of [floored] at the indices [inds]. *)
Definition bump (inds floored : list nat) : list nat :=
  map (fun ix => if existsb (Nat.eqb (fst ix)) inds then S (snd ix) else snd ix)
      (combine (seq 0 (length floored)) floored).

(** Hand out the draws the floors left over: classes with the largest
    remainder first, ties broken by the generator. *)
Fixpoint add_remainders (values remainder floored : list nat)
         (need_to_add : nat) (g : rng) : list nat * rng :=
  match values with
  | [] => (floored, g)
  | value :: values =>
      let inds := positions value remainder in
      let add_now := Nat.min (length inds) need_to_add in
      let (chosen, g) := choice inds add_now g in
      let floored := bump chosen floored in
      let need_to_add := (need_to_add - add_now)%nat in
      if (need_to_add =? 0)%nat then (floored, g)
      else add_remainders values remainder floored need_to_add g
  end.

(** Modelled from the spec: the class proportions "within rounding"
    (the library's [_approximate_mode] is missing).  How many of [n_draws]
    rows each class gets: its share [count * n_draws / total] rounded down,
    the rest by remainder.  The remainders are kept as numerators over
    [total]. *)
Definition approximate_mode (class_counts : list nat) (n_draws : nat) (g : rng)
  : list nat * rng :=
  let total := list_sum class_counts in
  let floored := map (fun c => (c * n_draws / total)%nat) class_counts in
  let need_to_add := (n_draws - list_sum floored)%nat in
  if (0 <? need_to_add)%nat then
    let remainder := map (fun c => ((c * n_draws) mod total)%nat) class_counts in
    add_remainders (rev (classes remainder)) remainder floored need_to_add g
  else (floored, g).

(** Per class, in class order: permute the class's rows, the first
    [n_i] go to train and the next [t_i] to test. *)
Fixpoint draw_classes (class_indices : list (list nat)) (n_i t_i : list nat)
         (g : rng) : list nat * list nat * rng :=
  match class_indices, n_i, t_i with
  | idx :: class_indices, n :: n_i, t :: t_i =>
      let (permutation, g) := rng_permutation (length idx) g in
      let perm_indices := take idx permutation in
      let '(train, test, g) := draw_classes class_indices n_i t_i g in
      (firstn n perm_indices ++ train,
       firstn t (skipn n perm_indices) ++ test, g)
  | _, _, _ => ([], [], g)
  end.

Fixpoint minus_each (a b : list nat) : list nat :=
  match a, b with
  | x :: a, y :: b => (x - y)%nat :: minus_each a b
  | _, _ => a
  end.

(** Modelled from the spec: the row numbers of the two partitions
    (the library's [StratifiedShuffleSplit] is missing).  Fails when a class
    has fewer than 2 members. *)
Definition split_indices (labels : list nat) (n_train n_test : nat) (seed : Z)
  : result (list nat * list nat) :=
  let counts := class_counts labels in
  if existsb (fun c => c <? 2)%nat counts then Raise InsufficientSamplesError
  else
    let g := RandomState seed in
    let (n_i, g) := approximate_mode counts n_train g in
    let class_counts_remaining := minus_each counts n_i in
    let (t_i, g) := approximate_mode class_counts_remaining n_test g in
    let '(train, test, g) := draw_classes (class_indices labels) n_i t_i g in
    let (train, g) := shuffle train g in
    let (test, g) := shuffle test g in
    Ok (train, test).

(** The number of evaluation rows: [holdout_fraction] of the rows,
    rounded up. *)
Definition n_test_of (holdout_fraction : Q) (n_samples : nat) : nat :=
  Z.to_nat (Qceiling (holdout_fraction * inject_Z (Z.of_nat n_samples))).

(** Modelled from the spec: [split] of SplitStrategy ([train_test_split]
    is missing).  The only failure is the one the specification names, and
    [holdout_fraction] is a rational.  The last argument is the generator
    state of the process outside the call; the call seeds a generator of
    its own and hands the outside one back. *)
Definition split (features : list A) (labels : list nat)
           (holdout_fraction : Q) (seed : Z) (ambient : rng)
  : result (list A * list nat * list A * list nat) * rng :=
  let n_samples := length labels in
  let n_test := n_test_of holdout_fraction n_samples in
  let n_train := (n_samples - n_test)%nat in
  (match split_indices labels n_train n_test seed with
   | Ok (train, test) =>
       Ok (select features train, select labels train,
           select features test, select labels test)
   | Raise e => Raise e
   end, ambient).

End SplitStrategy.

(** ** Concrete inputs *)

(** A small generator to run the split with: a linear congruential state,
    and permutations that rotate [0..n-1] by the state. *)
Module Lcg.

Definition state : Type := Z.

Definition seed (s : Z) : state := (s mod 2147483648)%Z.

Definition next (g : state) : state :=
  ((g * 1103515245 + 12345) mod 2147483648)%Z.

Definition permutation (n : nat) (g : state) : list nat * state :=
  let k := Z.to_nat (g mod Z.of_nat n) in
  (skipn k (seq 0 n) ++ firstn k (seq 0 n), next g).

End Lcg.

Module Samples.

Import Normalizer.
Open Scope R_scope.



Close Scope R_scope.
Open Scope float_scope.

(** The same hand as a [float64] array, and one with all 21 landmarks at
    [(1, 2, 3)]. *)
Definition hand64 : list float :=
  [1; 0; 3; 2; 2; 3; 3; 4; 3;
   4; 6; 3; 5; 8; 3; 6; 10; 3;
   7; 12; 3; 8; 14; 3; 9; 16; 3;
   10; 18; 3; 11; 20; 3; 12; 22; 3;
   13; 24; 3; 14; 26; 3; 15; 28; 3;
   16; 30; 3; 17; 32; 3; 18; 34; 3;
   19; 36; 3; 20; 38; 3; 21; 40; 3].

Definition still_hand64 : list float :=
  [1; 2; 3; 1; 2; 3; 1; 2; 3;
   1; 2; 3; 1; 2; 3; 1; 2; 3;
   1; 2; 3; 1; 2; 3; 1; 2; 3;
   1; 2; 3; 1; 2; 3; 1; 2; 3;
   1; 2; 3; 1; 2; 3; 1; 2; 3;
   1; 2; 3; 1; 2; 3; 1; 2; 3;
   1; 2; 3; 1; 2; 3; 1; 2; 3].

(** A wrist at the origin with one landmark at [(1, 1, 0)] and the other
    19 on the wrist. *)
Definition pointing64 : list float :=
  0 :: 0 :: 0 :: 1 :: 1 :: 0 :: repeat 0 57.

(** An offset that is far away, and 0.1, 0.2 and 0.3 as Python reads
    them. *)
Definition far_offset : vec3 float := (1e16, 0, 0).


(** A wrist at the origin, one landmark 2^-600 away from it, the other
    19 on the wrist. *)
Definition tiny_hand64 : list float :=
  0 :: 0 :: 0 :: 0x1p-600 :: 0 :: 0 :: repeat 0 57.

Definition short_input : list float := [1; 2; 3; 4].

Close Scope float_scope.

(** 40 rows, 20 of class 0 and 20 of class 1, and their row ids as
    features. *)
Definition two_classes : list nat :=
  [0; 1; 0; 1; 0; 1; 0; 1; 0;
   1; 0; 1; 0; 1; 0; 1; 0; 1;
   0; 1; 1; 1; 0; 0; 1; 1; 0;
   0; 1; 1; 0; 0; 1; 1; 0; 0;
   1; 1; 0; 0].

Definition row_ids : list nat := seq 100 40.

(** Class 1 has a single row. *)
Definition lonely_class : list nat := [0; 0; 1; 0].

Open Scope string_scope.

Definition gestures : list string := ["hello"; "yes"; "no"; "hello"; "yes"].

Close Scope string_scope.

End Samples.

(** ** Scaling a hand *)

Module Scaling.

Import Normalizer.
Open Scope R_scope.



End Scaling.

(** ** The preprocessing loop *)

Module Preprocess.

Import Normalizer.

(** What the loop of lines 38-41 can raise: the KeyError of a subscript
    on a record without that key, and what [normalize_landmarks] raises. *)
Inductive raised : Type :=
| KeyError (key : string)
| Raised (e : exn).

Inductive run (A : Type) : Type :=
| Return (a : A)
| Throw (r : raised).

Arguments Return {A} a.
Arguments Throw {A} r.

(** One record of [raw_data], as far as the loop reads it: a JSON object
    whose ["features"], when the key is there, is a flat list of numbers
    and whose ["label"], when the key is there, is a string. *)
Record sample (num : Type) : Type := {
  item_features : option (list num);
  item_label : option string
}.

Arguments item_features {num} s.
Arguments item_label {num} s.

(** A record with both keys whose features have a length the reshape and
    the subscript [landmarks[0]] accept. *)
Definition accepted {num : Type} (s : sample num) : bool :=
  match item_features s, item_label s with
  | Some flat, Some _ => negb (length flat =? 0)%nat && (length flat mod 3 =? 0)%nat
  | _, _ => false
  end.

Section Loop.

Context {num : Type} {N : Number num}.

(** [sample['features']] and [sample['label']] *)
Definition getitem_features (s : sample num) : run (list num) :=
  match item_features s with
  | Some flat => Return flat
  | None => Throw (KeyError "features")
  end.

Definition getitem_label (s : sample num) : run string :=
  match item_label s with
  | Some l => Return l
  | None => Throw (KeyError "label")
  end.

(** Lines 38-41, from the lists [X] and [y] built so far. *)
Fixpoint loop (raw_data : list (sample num)) (X : list (list num)) (y : list string)
  : run (list (list num) * list string) :=
  match raw_data with
  | [] => Return (X, y)
  | sample :: raw_data =>
      match getitem_features sample with
      | Throw r => Throw r
      | Return flat =>
          match normalize_landmarks flat with
          | Raise e => Throw (Raised e)
          | Ok features =>
              let X := X ++ [features] in
              match getitem_label sample with
              | Throw r => Throw r
              | Return l =>
                  let y := y ++ [l] in
                  loop raw_data X y
              end
          end
      end
  end.

(** A row of [X] is the normalised features of its record. *)
Definition row_of (s : sample num) (out : list num) : Prop :=
  exists flat, item_features s = Some flat /\ normalize_landmarks flat = Ok out.

(** Lines 34-41. *)
Definition preprocess (raw_data : list (sample num))
  : run (list (list num) * list string) :=
  loop raw_data [] [].

End Loop.

End Preprocess.

(** ** Encoding the labels of the dataset *)

Module LabelEncoder.

Import LabelVocabulary.

(** Modelled from the spec: [encode] applied to a sequence of labels
    ([LabelEncoder.transform] is missing); the first unknown label fails. *)
Fixpoint transform (classes : list string) (labels : list string)
  : result (list nat) :=
  match labels with
  | [] => Ok []
  | l :: labels =>
      c <- encode classes l ;;
      cs <- transform classes labels ;;
      Ok (c :: cs)
  end.

(** Modelled from the spec: line 48 and 49, [fit_transform] and [classes_]
    ([LabelEncoder] is missing): the vocabulary of the labels and their
    codes. *)
Definition fit_transform (y : list string) : list string * result (list nat) :=
  let classes := fit y in (classes, transform classes y).

End LabelEncoder.

(** ** The script, top to bottom *)

Module Script.

Import Normalizer Preprocess LabelVocabulary LabelEncoder.

Open Scope string_scope.

Definition DATA_FILE : string := "initial_batch.json".
Definition MODEL_DIR : string := "public/model".

(** The line feed that starts two of the printed lines. *)
Definition LF : string := String (ascii_of_nat 10) EmptyString.

(** The files, directories and standard output the script acts on.  Paths
    are relative to the working directory. *)
Record world : Type := {
  dirs : list string;
  files : list (string * string);
  stdout : list string
}.

(** What escapes the script: an operating-system error of a file
    operation, an exception of the loop, or one raised by a library call. *)
Inductive uncaught : Type :=
| FileExistsError
| NotADirectoryError
| IsADirectoryError
| FromLoop (r : raised)
| FromLibrary (e : exn).

(** How a run ends: at the last line, by [exit()], or by a traceback. *)
Inductive outcome : Type :=
| Finished
| Exited (status : Z)
| Uncaught (e : uncaught).

Fixpoint lookup (path : string) (fs : list (string * string)) : option string :=
  match fs with
  | [] => None
  | (p, content) :: fs => if String.eqb path p then Some content else lookup path fs
  end.

Definition read (w : world) (path : string) : option string :=
  lookup path (files w).

Definition is_file (w : world) (path : string) : bool :=
  match read w path with Some _ => true | None => false end.

Definition is_dir (w : world) (path : string) : bool :=
  existsb (String.eqb path) (dirs w).

Definition print (line : string) (w : world) : world :=
  {| dirs := dirs w; files := files w; stdout := stdout w ++ [line] |}.

Definition mkdir (path : string) (w : world) : world :=
  if is_dir w path then w
  else {| dirs := path :: dirs w; files := files w; stdout := stdout w |}.

(** Line 13, [os.makedirs(MODEL_DIR, exist_ok=True)]: the parent first;
    a plain file in the way is an error, a directory that is there is
    not. *)
Definition makedirs_model_dir (w : world) : uncaught + world :=
  if is_file w "public" then inl NotADirectoryError
  else if is_file w MODEL_DIR then inl FileExistsError
  else inr (mkdir MODEL_DIR (mkdir "public" w)).

(** [open(path, 'w')] followed by writing [content] and closing. *)
Definition write (path content : string) (w : world) : uncaught + world :=
  if is_dir w path then inl IsADirectoryError
  else inr {| dirs := dirs w;
              files := (path, content) :: files w;
              stdout := stdout w |}.

Section Main.

(** The library calls of the script, whose code is not the repository's:
    [json.load], [np.array] on the list of rows, the text of the array of
    classes in the f-string of line 50, [json.dump], [train_test_split],
    the model definition and [compile] of lines 58-68, [model.fit] with
    what it prints, and [model.save]. *)
Variable ndarray partitions model : Type.
Variable json_load : string -> result (list (sample float)).
Variable np_array : list (list float) -> result ndarray.
Variable show_classes : list string -> string.
Variable json_dumps : list string -> string.
Variable train_test_split : ndarray -> list nat -> result partitions.
Variable build_model : nat -> result model.
Variable model_fit : model -> partitions -> list string * result model.
Variable model_save : model -> result string.

(** Lines 43-77, from the lists the loop built.  [model.save] is the
    serialisation of the model followed by the write of the file. *)
Definition encode_train_save (X : list (list float)) (y : list string) (w : world)
  : outcome * world :=
  match np_array X with
  | Raise e => (Uncaught (FromLibrary e), w)
  | Ok X =>
  let (CLASSES, y_encoded) := fit_transform y in
  match y_encoded with
  | Raise e => (Uncaught (FromLibrary e), w)
  | Ok y_encoded =>
  let w := print ("Classes found: " ++ show_classes CLASSES) w in
  match write (MODEL_DIR ++ "/classes.json") (json_dumps CLASSES) w with
  | inl e => (Uncaught e, w)
  | inr w =>
  match train_test_split X y_encoded with
  | Raise e => (Uncaught (FromLibrary e), w)
  | Ok split =>
  match build_model (length CLASSES) with
  | Raise e => (Uncaught (FromLibrary e), w)
  | Ok model =>
  let w := print (LF ++ "Starting training...") w in
  let (log, fitted) := model_fit model split in
  let w := fold_left (fun w line => print line w) log w in
  match fitted with
  | Raise e => (Uncaught (FromLibrary e), w)
  | Ok model =>
  let w := print (LF ++ "Saving to model_v2.h5...") w in
  match model_save model with
  | Raise e => (Uncaught (FromLibrary e), w)
  | Ok h5 =>
  match write "model_v2.h5" h5 w with
  | inl e => (Uncaught e, w)
  | inr w => (Finished, print "Done! Now run the conversion command." w)
  end end end end end end end end.

(** The script.  [exit()] without an argument ends the process with
    status 0. *)
Definition main (w : world) : outcome * world :=
  match makedirs_model_dir w with
  | inl e => (Uncaught e, w)
  | inr w =>
  let w := print ("Loading " ++ DATA_FILE ++ "...") w in
  match read w DATA_FILE with
  | None =>
      if is_dir w DATA_FILE then (Uncaught IsADirectoryError, w)
      else (Exited 0, print ("ERROR: " ++ DATA_FILE ++ " not found!") w)
  | Some text =>
  match json_load text with
  | Raise e => (Uncaught (FromLibrary e), w)
  | Ok raw_data =>
  let w := print "Preprocessing samples..." w in
  match preprocess raw_data with
  | Throw r => (Uncaught (FromLoop r), w)
  | Return (X, y) => encode_train_save X y w
  end end end end.

End Main.

Close Scope string_scope.

End Script.


(** ** A small dataset and stand-ins for the libraries *)

Module Demo.

Import Normalizer Preprocess LabelVocabulary Script.

Open Scope float_scope.

(** A hand with a NaN coordinate. *)
Definition nan_hand64 : list float := [0; 0; 0; nan; 1; 0].

(** One record: a wrist at [(1, 1, 1)] and a second landmark. *)
Definition record (x : float) (label : string) : sample float :=
  {| item_features := Some [1; 1; 1; x; 5; 1]; item_label := Some label |}.

Close Scope float_scope.
Open Scope string_scope.

(** Ten records, five for each of two labels. *)
Definition records : list (sample float) :=
  [record 2 "yes"; record 3 "no"; record 4 "yes"; record 5 "no";
   record 6 "yes"; record 7 "no"; record 8 "yes"; record 9 "no";
   record 10 "yes"; record 11 "no"].

(** A record whose features are not a whole number of landmarks, and one
    without a label. *)
Definition ragged : sample float :=
  {| item_features := Some [1; 2; 3; 4]%float; item_label := Some "no" |}.

Definition unlabelled : sample float :=
  {| item_features := Some [1; 1; 1; 4; 5; 1]%float; item_label := None |}.

(** The third record is the ragged one. *)
Definition ragged_records : list (sample float) :=
  (firstn 2 records ++ ragged :: skipn 2 records)%list.

(** The label "maybe" occurs once. *)
Definition lonely_records : list (sample float) :=
  [record 2 "yes"; record 3 "no"; record 4 "yes"; record 5 "no";
   record 6 "maybe"].

(** The rows the loop builds from records it accepts. *)
Definition rows_of (raw_data : list (sample float)) : list (list float) :=
  flat_map (fun s => match item_features s with
                     | Some flat =>
                         match normalize_landmarks flat with
                         | Ok features => [features]
                         | Raise _ => []
                         end
                     | None => []
                     end) raw_data.

(** The parsed content of three data files, by their text. *)
Definition json_load (text : string) : result (list (sample float)) :=
  if String.eqb text "records" then Ok records
  else if String.eqb text "ragged" then Ok ragged_records
  else if String.eqb text "lonely" then Ok lonely_records
  else Raise ValueError.

Definition ndarray : Type := list (list float).
Definition partitions : Type :=
  (list (list float) * list nat * list (list float) * list nat)%type.
Definition model : Type := nat.

Definition np_array (X : list (list float)) : result ndarray := Ok X.

Definition show_classes (classes : list string) : string := String.concat " " classes.

Definition json_dumps (classes : list string) : string := String.concat "," classes.

(** Line 55 with the split modelled above and the sample generator. *)
Definition train_test_split (X : ndarray) (y : list nat) : result partitions :=
  fst (split Lcg.state Lcg.seed Lcg.permutation (list float) X y (1 # 5) 42 7%Z).

(** A model is stood for by the width of its output layer. *)
Definition build_model (outputs : nat) : result model := Ok outputs.

Definition model_fit (m : model) (_ : partitions) : list string * result model :=
  (["Epoch 1/50"; "Epoch 50/50"], Ok m).

Definition model_save (m : model) : result string :=
  Ok (if (m =? 2)%nat then "two outputs" else "other").

Definition script : world -> outcome * world :=
  main ndarray partitions model json_load np_array show_classes json_dumps
       train_test_split build_model model_fit model_save.

(** An empty working directory, and one that holds the data file and a
    model of an earlier run. *)
Definition empty_directory : world := {| dirs := []; files := []; stdout := [] |}.

Definition with_data (text : string) : world :=
  {| dirs := ["public"];
     files := [(DATA_FILE, text); ("model_v2.h5", "old model")];
     stdout := [] |}.

Close Scope string_scope.

End Demo.

Module NormalizerFacts.
Import Normalizer.

Section Shape.

Context {num : Type} {N : Number num}.

(** *** Lists taken three entries at a time *)

Lemma list_ind3 (P : list num -> Prop) :
  P [] ->
  (forall x, P [x]) ->
  (forall x y, P [x; y]) ->
  (forall x y z rest, P rest -> P (x :: y :: z :: rest)) ->
  forall l, P l.
Proof.
  intros H0 H1 H2 H3.
  fix IH 1.
  intros [|x [|y [|z rest]]];
    [apply H0 | apply H1 | apply H2 | apply H3; apply IH].
Qed.

Lemma reshape3_cons (x y z : num) (rest : list num) :
  reshape3 (x :: y :: z :: rest) =
  match reshape3 rest with
  | Ok rows => Ok ((x, y, z) :: rows)
  | Raise e => Raise e
  end.
Proof. reflexivity. Qed.

Lemma reshape3_length (flat : list num) rows :
  reshape3 flat = Ok rows -> length flat = (3 * length rows).
Proof.
  revert rows. induction flat as [| x | x y | x y z rest IH] using list_ind3;
    intros rows H; try discriminate.
  - injection H as <-. reflexivity.
  - rewrite reshape3_cons in H.
    destruct (reshape3 rest) as [r|e]; [|discriminate].
    injection H as <-. simpl. rewrite (IH r eq_refl). lia.
Qed.

Lemma reshape3_mod (flat : list num) :
  length flat mod 3 <> 0 -> reshape3 flat = Raise ValueError.
Proof.
  induction flat as [| x | x y | x y z rest IH] using list_ind3; intros H.
  - exfalso. apply H. reflexivity.
  - reflexivity.
  - reflexivity.
  - rewrite reshape3_cons, IH; [reflexivity|].
    intros E. apply H.
    change (length (x :: y :: z :: rest)) with (3 + length rest).
    replace (3 + length rest) with (length rest + 1 * 3) by lia.
    rewrite Nat.Div0.mod_add. exact E.
Qed.

Lemma reshape3_total (flat : list num) k :
  length flat = (3 * k) ->
  exists rows, reshape3 flat = Ok rows /\ length rows = k.
Proof.
  revert k. induction flat as [| x | x y | x y z rest IH] using list_ind3;
    intros k H; simpl in H.
  - exists []. split; [reflexivity | simpl; lia].
  - lia.
  - lia.
  - destruct k as [|k]; [lia|].
    destruct (IH k) as (rows & E & L); [lia|].
    exists ((x, y, z) :: rows). rewrite reshape3_cons, E. simpl. auto.
Qed.


Lemma flatten_reshape3 (flat : list num) rows : reshape3 flat = Ok rows -> flatten rows = flat.
Proof.
  revert rows. induction flat as [| x | x y | x y z rest IH] using list_ind3;
    intros rows H; try discriminate.
  - injection H as <-. reflexivity.
  - rewrite reshape3_cons in H.
    destruct (reshape3 rest) as [r|e]; [|discriminate].
    injection H as <-.
    change (flatten ((x, y, z) :: r)) with (x :: y :: z :: flatten r).
    rewrite (IH r eq_refl). reflexivity.
Qed.

Lemma flatten_length (rows : list (vec3 num)) : length (flatten rows) = (3 * length rows).
Proof.
  induction rows as [|[[x y] z] rows IH]; [reflexivity|].
  change (flatten (((x, y), z) :: rows)) with (x :: y :: z :: flatten rows).
  simpl length. rewrite IH. lia.
Qed.

Lemma reshape3_landmark (flat : list num) rows i :
  reshape3 flat = Ok rows -> (i < length rows) ->
  nth i rows vzero = landmark flat i.
Proof.
  revert rows i. induction flat as [| x | x y | x y z rest IH] using list_ind3;
    intros rows i H Hi; try discriminate.
  - injection H as <-. simpl in Hi. lia.
  - rewrite reshape3_cons in H.
    destruct (reshape3 rest) as [r|e]; [|discriminate].
    injection H as <-.
    destruct i as [|i]; [reflexivity|].
    simpl in Hi. simpl nth at 1. rewrite (IH r i eq_refl) by lia.
    unfold landmark.
    replace (3 * S i) with (S (S (S (3 * i)))) by lia.
    reflexivity.
Qed.


Lemma normalize_rows (flat : list num) w rows :
  reshape3 flat = Ok (w :: rows) ->
  normalize_landmarks flat =
  Ok (flatten (let c := map (vsub w) (w :: rows) in
               if scales c then map (vdiv (max_dist c)) c else c)).
Proof. intros H. unfold normalize_landmarks. rewrite H. reflexivity. Qed.

Lemma reshape3_rows (flat : list num) k :
  length flat = 3 * S k ->
  exists w rows, reshape3 flat = Ok (w :: rows) /\ length rows = k.
Proof.
  intros H. destruct (reshape3_total flat (S k) H) as ([|w rows] & E & L); [discriminate|].
  exists w, rows. split; [exact E | simpl in L; lia].
Qed.


Lemma rows_all_anchor (flat : list num) w rows :
  reshape3 flat = Ok (w :: rows) ->
  (forall i, i < S (length rows) -> landmark flat i = landmark flat 0) ->
  forall p, In p (w :: rows) -> p = w.
Proof.
  intros E H p Hp.
  destruct (In_nth _ _ vzero Hp) as (i & Hi & <-).
  rewrite (reshape3_landmark flat _ i E Hi), (H i Hi).
  symmetry. apply (reshape3_landmark flat (w :: rows) 0 E). simpl. lia.
Qed.

Lemma rows_all_zero (c : list (vec3 num)) n :
  length c = n -> (forall q, In q c -> q = vzero) ->
  flatten c = repeat np_zero (3 * n).
Proof.
  intros L Z. assert (C : c = repeat vzero n).
  { rewrite <- L. apply Forall_eq_repeat, Forall_forall.
    intros q Hq. symmetry. apply Z, Hq. }
  rewrite C. clear. induction n as [|n IH]; [reflexivity|].
  replace (3 * S n) with (S (S (S (3 * n)))) by lia.
  simpl repeat. change (flatten (vzero :: repeat vzero n))
    with (np_zero :: np_zero :: np_zero :: flatten (repeat vzero n)).
  rewrite IH. reflexivity.
Qed.

(** C4: an input whose length is not a multiple of 3 makes the reshape,
    and so the function, fail with numpy's ValueError (the specification's
    InvalidShapeError), whatever the entries are. *)
Theorem normalize_rejects_bad_length (flat : list num) :
  length flat mod 3 <> 0 -> normalize_landmarks flat = Raise ValueError.
Proof.
  intros H. unfold normalize_landmarks.
  rewrite (reshape3_mod flat H). reflexivity.
Qed.

End Shape.

Example normalize_empty :
  normalize_landmarks (N := float64) [] = Raise IndexError.
Proof. reflexivity. Qed.

Lemma normalize_rejects_bad_length_witness :
  length Samples.short_input mod 3 <> 0 /\
  normalize_landmarks Samples.short_input = Raise ValueError.
Proof.
  assert (H : length Samples.short_input mod 3 <> 0) by (simpl; discriminate).
  split; [exact H | apply (normalize_rejects_bad_length Samples.short_input H)].
Defined.

End NormalizerFacts.

(** ** normalize_landmarks in exact arithmetic *)

Module ExactFacts.
Import Normalizer NormalizerFacts.
Open Scope R_scope.

Ltac exact_arith :=
  cbn [np_zero np_add np_subtract np_multiply np_divide np_sqrt np_maximum
       np_greater exact] in *.


Lemma norm3_eq (x y z : R) : norm3 (x, y, z) = sqrt (x * x + y * y + z * z).
Proof. reflexivity. Qed.


Lemma norm3_vzero : norm3 (vzero : vec3 R) = 0.
Proof.
  unfold vzero. exact_arith. rewrite norm3_eq.
  replace (0 * 0 + 0 * 0 + 0 * 0) with 0 by ring. apply sqrt_0.
Qed.







Lemma np_max_cons (d e : R) ds : np_max d (e :: ds) = np_max (Rmax d e) ds.
Proof. reflexivity. Qed.



Lemma np_max_in (ds : list R) : forall d, np_max d ds = d \/ In (np_max d ds) ds.
Proof.
  induction ds as [|e ds IH]; intros d; [left; reflexivity|].
  rewrite np_max_cons. destruct (IH (Rmax d e)) as [H | H]; [|right; right; exact H].
  rewrite H. apply (Rmax_case d e); [left | right; left]; reflexivity.
Qed.




Lemma max_dist_zero (rows : list (vec3 R)) :
  (forall p, In p rows -> p = vzero) -> max_dist rows = 0.
Proof.
  intros H. unfold max_dist. destruct rows as [|q rows]; simpl; [reflexivity|].
  destruct (np_max_in (map norm3 rows) (norm3 q)) as [E | E].
  - rewrite E, (H q); [apply norm3_vzero | left; reflexivity].
  - apply in_map_iff in E as (p & E & Hp). rewrite <- E, (H p); [apply norm3_vzero|].
    right. exact Hp.
Qed.



Lemma scales_true (rows : list (vec3 R)) : 0 < max_dist rows -> scales rows = true.
Proof.
  intros H. unfold scales. exact_arith.
  destruct (Rlt_dec 0 (max_dist rows)); tauto.
Qed.


(** *** The function, step by step *)










(** A wrist at (1, 1, 1) and one more landmark at distance 5 from it. *)
Example normalize_two_landmarks :
  normalize_landmarks [1; 1; 1; 4; 5; 1] = Ok [0; 0; 0; 3 / 5; 4 / 5; 0].
Proof.
  rewrite (normalize_rows [1; 1; 1; 4; 5; 1] (1, 1, 1) [(4, 5, 1)] eq_refl).
  cbv zeta.
  match goal with |- context [scales ?r] => set (c := r) end.
  assert (M : max_dist c = 5).
  { unfold c, max_dist. simpl.
    replace ((1 - 1) * (1 - 1) + (1 - 1) * (1 - 1) + (1 - 1) * (1 - 1)) with 0 by ring.
    replace ((4 - 1) * (4 - 1) + (5 - 1) * (5 - 1) + (1 - 1) * (1 - 1)) with (5 * 5)
      by ring.
    rewrite sqrt_0, sqrt_square by lra.
    unfold Rmax. destruct (Rle_dec 0 5); lra. }
  rewrite scales_true, M by lra. unfold c. simpl. exact_arith.
  repeat (f_equal; try lra).
Qed.

(** *** The claims, in exact arithmetic *)








End ExactFacts.

(** ** normalize_landmarks on float64 *)

Module Float64Facts.
Import Normalizer NormalizerFacts.
Open Scope float_scope.

(** *** What the function needs of binary64 arithmetic *)

Lemma is_finite_inv x :
  is_finite x = true ->
  (exists s, Prim2SF x = S754_zero s) \/ (exists s m e, Prim2SF x = S754_finite s m e).
Proof.
  unfold is_finite, is_nan, is_infinity.
  rewrite !FloatAxioms.eqb_spec, FloatAxioms.abs_spec.
  destruct (Prim2SF x) as [s | s | | s m e] eqn:E.
  - intros _. left. exists s. reflexivity.
  - destruct s; vm_compute; discriminate.
  - vm_compute. discriminate.
  - intros _. right. exists s, m, e. reflexivity.
Qed.

(** A number minus itself is +0. *)
Lemma sub_diag x : is_finite x = true -> x - x = 0.
Proof.
  intros H. apply Prim2SF_inj. rewrite FloatAxioms.sub_spec.
  change (Prim2SF 0) with (S754_zero false).
  destruct (is_finite_inv x H) as [(s & E) | (s & m & e & E)]; rewrite E.
  - destruct s; reflexivity.
  - unfold SF64sub, SFsub. rewrite Z.sub_diag. reflexivity.
Qed.

(** +0 divided by a positive number, or by +infinity, is +0. *)
Lemma zero_div m : (0 <? m) = true -> 0 / m = 0.
Proof.
  rewrite FloatAxioms.ltb_spec. intros H. apply Prim2SF_inj. rewrite FloatAxioms.div_spec.
  change (Prim2SF 0) with (S754_zero false) in *.
  destruct (Prim2SF m) as [s | s | | s mm e]; try discriminate;
    destruct s; try discriminate; reflexivity.
Qed.

Lemma f64_norm3_vzero : norm3 (vzero : vec3 float) = 0.
Proof. reflexivity. Qed.

Lemma np_max_zeros (ds : list float) :
  (forall x, In x ds -> x = 0) -> np_max 0 ds = 0.
Proof.
  induction ds as [|e ds IH]; intros H; [reflexivity|].
  rewrite (H e (or_introl eq_refl)).
  change (np_max 0 (0 :: ds)) with (np_max 0 ds).
  apply IH. intros x Hx. apply H. right. exact Hx.
Qed.

Lemma max_dist_zeros (c : list (vec3 float)) :
  (forall q, In q c -> q = vzero) -> max_dist c = 0.
Proof.
  intros H. unfold max_dist. destruct c as [|q c]; [reflexivity|].
  simpl map. rewrite (H q (or_introl eq_refl)), f64_norm3_vzero.
  apply np_max_zeros. intros x Hx. apply in_map_iff in Hx as (p & <- & Hp).
  rewrite (H p (or_intror Hp)). apply f64_norm3_vzero.
Qed.

Lemma f64_vsub_self (w : vec3 float) x y z :
  w = (x, y, z) -> is_finite x = true -> is_finite y = true -> is_finite z = true ->
  vsub w w = vzero.
Proof.
  intros -> Hx Hy Hz. unfold vsub, vzero.
  cbn [np_subtract np_zero float64]. rewrite !sub_diag by assumption. reflexivity.
Qed.

Lemma f64_vdiv_vzero m : np_greater m 0 = true -> vdiv m (vzero : vec3 float) = vzero.
Proof.
  cbn [np_greater float64]. intros H. unfold vdiv, vzero.
  cbn [np_divide np_zero float64]. rewrite !zero_div by exact H. reflexivity.
Qed.

(** The anchor of a finite input is finite and centres to the origin. *)
Lemma anchor_centred (flat : list float) w rows :
  reshape3 flat = Ok (w :: rows) -> finite flat = true -> vsub w w = vzero.
Proof.
  intros E F. destruct w as [[x y] z].
  apply flatten_reshape3 in E. rewrite <- E in F.
  change (flatten ((x, y, z) :: rows)) with (x :: y :: z :: flatten rows) in F.
  unfold finite in F. simpl in F.
  apply andb_prop in F as (Hx & F). apply andb_prop in F as (Hy & F).
  apply andb_prop in F as (Hz & _).
  apply (f64_vsub_self _ x y z); auto.
Qed.

(** *** The claims that hold on float64 *)

(** C1: for every 63-entry input of finite numbers the function returns a
    63-entry vector whose first three entries, the anchor landmark, are
    exactly 0. *)
Theorem normalize_anchor_at_origin (flat : list float) :
  length flat = 63%nat -> finite flat = true ->
  exists out, normalize_landmarks flat = Ok out /\
              length out = 63%nat /\ firstn 3 out = [0; 0; 0].
Proof.
  intros H F. destruct (reshape3_rows flat 20 H) as (w & rows & E & L).
  rewrite (normalize_rows flat w rows E). cbv zeta.
  set (c := map (vsub w) (w :: rows)).
  assert (Hc : c = vzero :: map (vsub w) rows).
  { unfold c. simpl. rewrite (anchor_centred flat w rows E F). reflexivity. }
  assert (Lc : length c = 21%nat) by (unfold c; rewrite length_map; simpl; lia).
  destruct (scales c) eqn:S; eexists; (split; [reflexivity|]); split.
  - rewrite flatten_length, length_map, Lc. reflexivity.
  - set (m := max_dist c). rewrite Hc.
    change (map (vdiv m) (vzero :: map (vsub w) rows))
      with (vdiv m vzero :: map (vdiv m) (map (vsub w) rows)).
    rewrite (f64_vdiv_vzero m S). reflexivity.
  - rewrite flatten_length, Lc. reflexivity.
  - rewrite Hc. reflexivity.
Qed.

(** C3: when all 21 landmarks of a finite input equal the anchor, the
    maximal distance is 0, the guard of the division is false, and the
    result is the all-zero vector of 63 entries. *)
Theorem normalize_degenerate (flat : list float) :
  length flat = 63%nat -> finite flat = true ->
  (forall i, (i < 21)%nat -> landmark flat i = landmark flat 0) ->
  exists rows c, reshape3 flat = Ok rows /\ center rows = Ok c /\
                 max_dist c = 0 /\ scales c = false /\
                 normalize_landmarks flat = Ok (repeat 0 63).
Proof.
  intros H F Hall. destruct (reshape3_rows flat 20 H) as (w & rows & E & L).
  assert (A : forall p, In p (w :: rows) -> p = w).
  { apply (rows_all_anchor flat w rows E). rewrite L. exact Hall. }
  set (c := map (vsub w) (w :: rows)).
  assert (Z : forall q, In q c -> q = vzero).
  { intros q Hq. apply in_map_iff in Hq as (p & <- & Hp).
    rewrite (A p Hp). apply (anchor_centred flat w rows E F). }
  assert (M : max_dist c = 0) by (apply max_dist_zeros, Z).
  assert (S : scales c = false) by (unfold scales; rewrite M; reflexivity).
  exists (w :: rows), c. repeat split; try assumption.
  rewrite (normalize_rows flat w rows E). cbv zeta. fold c. rewrite S.
  rewrite (rows_all_zero c 21); [reflexivity | | exact Z].
  unfold c. rewrite length_map. simpl. lia.
Qed.

Lemma normalize_anchor_at_origin_witness :
  (length Samples.hand64 = 63%nat /\ finite Samples.hand64 = true) /\
  exists out, normalize_landmarks Samples.hand64 = Ok out /\
              length out = 63%nat /\ firstn 3 out = [0; 0; 0].
Proof.
  split; [split; reflexivity|].
  apply (normalize_anchor_at_origin Samples.hand64); reflexivity.
Defined.

Lemma still_hand_all_anchor i :
  (i < 21)%nat ->
  landmark Samples.still_hand64 i = landmark Samples.still_hand64 0.
Proof.
  intros Hi. do 21 (destruct i as [|i]; [reflexivity|]). lia.
Qed.

Lemma normalize_degenerate_witness :
  (length Samples.still_hand64 = 63%nat /\ finite Samples.still_hand64 = true) /\
  exists rows c, reshape3 Samples.still_hand64 = Ok rows /\ center rows = Ok c /\
                 max_dist c = 0 /\ scales c = false /\
                 normalize_landmarks Samples.still_hand64 = Ok (repeat 0 63).
Proof.
  split; [split; reflexivity|].
  apply (normalize_degenerate Samples.still_hand64);
    [reflexivity | reflexivity | exact still_hand_all_anchor].
Defined.

(** *** Where rounding shows *)







Example far_offset_result :
  match normalize_landmarks (translate Samples.far_offset Samples.pointing64) with
  | Ok out => firstn 6 out = [0; 0; 0; 0; 1; 0]
  | Raise _ => False
  end.
Proof. vm_compute. reflexivity. Qed.


(** The entries have to be finite: with an infinite anchor coordinate the
    first entry of the result is NaN. *)
Example infinite_anchor :
  match normalize_landmarks [infinity; 0; 0; 1; 0; 0] with
  | Ok (x :: _) => is_nan x = true
  | _ => False
  end.
Proof. vm_compute. reflexivity. Qed.

(** A landmark 2^-600 off the wrist: its squared distance underflows to
    0, nothing is scaled, and the largest norm of the output is 0. *)
Example tiny_hand_unscaled :
  normalize_landmarks Samples.tiny_hand64 = Ok Samples.tiny_hand64 /\
  landmark Samples.tiny_hand64 1 <> landmark Samples.tiny_hand64 0 /\
  landmark_norms Samples.tiny_hand64 = Ok (repeat 0 21).
Proof.
  split; [vm_compute; reflexivity|]. split; [|vm_compute; reflexivity].
  intros E. apply (f_equal (fun p : vec3 float => fst (fst p) =? 0)) in E.
  vm_compute in E. discriminate E.
Qed.

End Float64Facts.
Module VocabularyFacts.
Import LabelVocabulary.

Lemma lex_lt_irrefl s : ~ lex_lt s s.
Proof. intros H. exact (String_as_OT.lt_not_eq _ _ H eq_refl). Qed.

Lemma compare_Gt_lt a b : String.compare a b = Gt -> lex_lt b a.
Proof.
  intros H. apply String_as_OT.cmp_lt. unfold String_as_OT.cmp.
  rewrite String.compare_antisym, H. reflexivity.
Qed.

Lemma insert_label_in x classes s :
  In s (insert_label x classes) <-> s = x \/ In s classes.
Proof.
  induction classes as [|c rest IH]; simpl.
  - intuition.
  - destruct (String.compare x c) eqn:E; simpl.
    + apply String.compare_eq_iff in E. subst c. intuition.
    + intuition.
    + rewrite IH. intuition.
Qed.

Lemma insert_label_hd x c rest :
  lex_lt c x -> HdRel lex_lt c rest -> HdRel lex_lt c (insert_label x rest).
Proof.
  intros Hcx H. destruct rest as [|d rest]; simpl.
  - constructor. exact Hcx.
  - inversion H; subst. destruct (String.compare x d); constructor; assumption.
Qed.

Lemma insert_label_sorted x classes :
  Sorted lex_lt classes -> Sorted lex_lt (insert_label x classes).
Proof.
  induction classes as [|c rest IH]; intros H; simpl.
  - repeat constructor.
  - inversion H; subst. destruct (String.compare x c) eqn:E.
    + exact H.
    + constructor; [exact H|]. constructor.
      apply String_as_OT.cmp_lt. exact E.
    + constructor; [apply IH; assumption|].
      apply insert_label_hd; [apply compare_Gt_lt, E | assumption].
Qed.

Lemma fit_in labels s : In s (fit labels) <-> In s labels.
Proof.
  induction labels as [|l labels IH]; simpl; [tauto|].
  rewrite insert_label_in, IH. intuition.
Qed.

Lemma fit_sorted labels : StronglySorted lex_lt (fit labels).
Proof.
  apply Sorted_StronglySorted.
  - intros a b c. apply String_as_OT.lt_trans.
  - induction labels as [|l labels IH]; simpl; [constructor|].
    apply insert_label_sorted, IH.
Qed.

Lemma sorted_NoDup classes : StronglySorted lex_lt classes -> NoDup classes.
Proof.
  induction 1 as [|c rest _ IH Hc]; constructor; [|exact IH].
  intros Hin. rewrite Forall_forall in Hc. exact (lex_lt_irrefl c (Hc c Hin)).
Qed.

Lemma index_of_nth classes : forall label i,
  index_of label classes = Some i -> nth_error classes i = Some label.
Proof.
  induction classes as [|c rest IH]; intros label i H; simpl in H; [discriminate|].
  destruct (String.eqb_spec label c) as [-> | Hne].
  - injection H as <-. reflexivity.
  - destruct (index_of label rest) as [j|] eqn:E; [|discriminate].
    injection H as <-. simpl. apply IH, E.
Qed.

Lemma nth_index_of classes : NoDup classes -> forall i label,
  nth_error classes i = Some label -> index_of label classes = Some i.
Proof.
  induction 1 as [|c rest Hc _ IH]; intros i label H.
  - destruct i; discriminate.
  - simpl. destruct i as [|i]; simpl in H.
    + injection H as ->. rewrite String.eqb_refl. reflexivity.
    + destruct (String.eqb_spec label c) as [-> | Hne].
      * exfalso. apply Hc. eapply nth_error_In, H.
      * rewrite (IH i label H). reflexivity.
Qed.

Example fit_gestures :
  fit Samples.gestures = ["hello"; "no"; "yes"]%string /\
  encode (fit Samples.gestures) "no" = Ok 1 /\
  encode (fit Samples.gestures) "maybe" = Raise UnknownLabelError /\
  decode (fit Samples.gestures) 1 = Ok "no"%string.
Proof. repeat split. Qed.

(** C5: the fitted vocabulary lists the distinct labels of the fitted
    sequence in strictly increasing lexicographic order, its indices are
    exactly 0..C-1, and decoding the code of a fitted label gives the label
    back. *)
Theorem vocabulary_sorted_roundtrip (labels : list string) :
  StronglySorted lex_lt (fit labels) /\
  (forall s, In s (fit labels) <-> In s labels) /\
  (forall label, In label labels ->
     exists i, encode (fit labels) label = Ok i /\
               i < length (fit labels) /\
               decode (fit labels) i = Ok label) /\
  (forall i, i < length (fit labels) ->
     exists label, In label labels /\
                   decode (fit labels) i = Ok label /\
                   encode (fit labels) label = Ok i).
Proof.
  pose proof (fit_sorted labels) as S. pose proof (sorted_NoDup _ S) as D.
  split; [exact S|]. split; [apply fit_in|]. split.
  - intros label H. apply fit_in in H.
    destruct (In_nth_error _ _ H) as (i & Hi).
    exists i. unfold encode, decode.
    rewrite (nth_index_of _ D _ _ Hi), Hi. repeat split.
    apply nth_error_Some. congruence.
  - intros i Hi. destruct (nth_error (fit labels) i) as [label|] eqn:E.
    + exists label. unfold encode, decode.
      rewrite E, (nth_index_of _ D _ _ E). repeat split.
      apply fit_in. eapply nth_error_In, E.
    + apply nth_error_None in E. lia.
Qed.

Lemma vocabulary_sorted_roundtrip_witness :
  fit Samples.gestures = ["hello"; "no"; "yes"]%string /\
  encode (fit Samples.gestures) "yes" = Ok 2 /\
  exists i, encode (fit Samples.gestures) "no" = Ok i /\
            i < length (fit Samples.gestures) /\
            decode (fit Samples.gestures) i = Ok "no"%string.
Proof.
  split; [reflexivity|]. split; [reflexivity|].
  apply (vocabulary_sorted_roundtrip Samples.gestures).
  simpl. auto.
Defined.

End VocabularyFacts.

Module SplitFacts.

(** *** Lists of row numbers *)

Lemma filter_none {B : Type} (f : B -> bool) (l : list B) :
  (forall x, In x l -> f x = false) -> filter f l = [].
Proof.
  induction l as [|x l IH]; intros H; simpl; [reflexivity|].
  rewrite (H x) by (left; reflexivity). apply IH. intros y Hy. apply H. right. exact Hy.
Qed.

Lemma filter_partition {B : Type} (f : B -> bool) (l : list B) :
  Permutation (filter f l ++ filter (fun x => negb (f x)) l) l.
Proof.
  induction l as [|x l IH]; simpl; [constructor|].
  destruct (f x); simpl.
  - constructor. exact IH.
  - apply Permutation_sym, Permutation_cons_app, Permutation_sym, IH.
Qed.

Lemma take_seq (l : list nat) : take l (seq 0 (length l)) = l.
Proof.
  unfold take. apply (nth_ext _ _ 0 0).
  - rewrite length_map, length_seq. reflexivity.
  - intros n Hn. rewrite length_map, length_seq in Hn.
    rewrite (nth_indep _ 0 (nth 0 l 0)) by (rewrite length_map, length_seq; exact Hn).
    rewrite (map_nth (fun i => nth i l 0)), seq_nth by exact Hn. reflexivity.
Qed.

Lemma take_perm (l p : list nat) :
  Permutation p (seq 0 (length l)) -> Permutation (take l p) l.
Proof.
  intros H. rewrite <- (take_seq l) at 2. unfold take. apply Permutation_map, H.
Qed.

Lemma select_in {B : Type} (rows : list B) (idx : list nat) i x :
  In i idx -> nth_error rows i = Some x -> In x (select rows idx).
Proof.
  intros Hi Hx. unfold select. apply in_flat_map. exists i. split; [exact Hi|].
  rewrite Hx. left. reflexivity.
Qed.

Lemma select_length {B : Type} (rows : list B) (idx : list nat) :
  (forall i, In i idx -> i < length rows) -> length (select rows idx) = length idx.
Proof.
  induction idx as [|i idx IH]; intros H; simpl; [reflexivity|].
  rewrite length_app, IH by (intros j Hj; apply H; right; exact Hj).
  destruct (nth_error rows i) eqn:E; [reflexivity|].
  apply nth_error_None in E. specialize (H i (or_introl eq_refl)). lia.
Qed.

(** *** Classes and their rows *)

Lemma existsb_eqb_in (c : nat) (y : list nat) :
  existsb (Nat.eqb c) y = true <-> In c y.
Proof.
  rewrite existsb_exists. split.
  - intros (x & Hx & E). apply Nat.eqb_eq in E. subst. exact Hx.
  - intros H. exists c. split; [exact H | apply Nat.eqb_refl].
Qed.

Lemma in_le_list_max (y : list nat) c : In c y -> c <= list_max y.
Proof.
  intros H. pose proof (proj1 (list_max_le y (list_max y)) (le_n _)) as F.
  rewrite Forall_forall in F. apply F, H.
Qed.

Lemma classes_in (y : list nat) c : In c (classes y) <-> In c y.
Proof.
  unfold classes. rewrite filter_In, in_seq, existsb_eqb_in. split; [tauto|].
  intros H. pose proof (in_le_list_max y c H). split; [lia | exact H].
Qed.

Lemma positions_in c (y : list nat) j :
  In j (positions c y) <-> j < length y /\ nth j y 0 = c.
Proof.
  unfold positions. rewrite filter_In, in_seq, Nat.eqb_eq. intuition lia.
Qed.

Lemma positions_length c (y : list nat) :
  length (positions c y) = count_occ Nat.eq_dec y c.
Proof.
  unfold positions. induction y as [|x y IH] using rev_ind; [reflexivity|].
  rewrite length_app. simpl (length [x]).
  rewrite Nat.add_1_r, seq_S, filter_app, length_app.
  rewrite count_occ_app. f_equal.
  - rewrite <- IH. f_equal. apply filter_ext_in. intros j Hj.
    apply in_seq in Hj. rewrite app_nth1 by lia. reflexivity.
  - simpl. rewrite app_nth2, Nat.sub_diag by lia. simpl.
    destruct (Nat.eq_dec x c) as [-> | Hne].
    + rewrite Nat.eqb_refl. reflexivity.
    + apply Nat.eqb_neq in Hne. rewrite Hne. reflexivity.
Qed.

Lemma count_two_le a b (y : list nat) :
  a <> b -> count_occ Nat.eq_dec y a + count_occ Nat.eq_dec y b <= length y.
Proof.
  intros Hab. induction y as [|x y IH]; simpl; [lia|].
  destruct (Nat.eq_dec x a), (Nat.eq_dec x b); subst; lia.
Qed.

Lemma two_values a b (y : list nat) :
  a <> b ->
  count_occ Nat.eq_dec y a + count_occ Nat.eq_dec y b = length y ->
  forall x, In x y -> x = a \/ x = b.
Proof.
  intros Hab. induction y as [|v y IH]; simpl; [tauto|].
  pose proof (count_two_le a b y Hab) as Hle.
  intros H x [<- | Hx].
  - destruct (Nat.eq_dec v a), (Nat.eq_dec v b); auto. lia.
  - apply IH; [|exact Hx].
    destruct (Nat.eq_dec v a), (Nat.eq_dec v b); subst; try lia.
Qed.

Lemma classes_two a b (y : list nat) :
  a < b -> In a y -> In b y -> (forall x, In x y -> x = a \/ x = b) ->
  classes y = [a; b].
Proof.
  intros Hab Ha Hb Hall. unfold classes.
  pose proof (in_le_list_max y b Hb) as Hm.
  set (f := fun c => existsb (Nat.eqb c) y).
  assert (Hf : forall c, c <> a -> c <> b -> f c = false).
  { intros c Hca Hcb. destruct (f c) eqn:E; [|reflexivity].
    apply existsb_eqb_in in E. destruct (Hall c E); contradiction. }
  assert (Fa : f a = true) by (apply existsb_eqb_in, Ha).
  assert (Fb : f b = true) by (apply existsb_eqb_in, Hb).
  replace (S (list_max y)) with (a + (1 + ((b - a - 1) + (1 + (list_max y - b))))) by lia.
  rewrite !seq_app, !filter_app.
  replace (0 + a + 1 + (b - a - 1)) with b by lia.
  replace (0 + a) with a by lia.
  change (seq a 1) with [a]. change (seq b 1) with [b].
  change (filter f [a]) with (if f a then [a] else []).
  change (filter f [b]) with (if f b then [b] else []).
  rewrite Fa, Fb.
  rewrite (filter_none f (seq 0 a)), (filter_none f (seq (a + 1) (b - a - 1))),
    (filter_none f (seq (b + 1) (list_max y - b))); [reflexivity | | |];
    intros c Hc; apply in_seq in Hc; apply Hf; lia.
Qed.

Lemma positions_two a b (y : list nat) :
  a <> b -> (forall x, In x y -> x = a \/ x = b) ->
  Permutation (positions a y ++ positions b y) (seq 0 (length y)).
Proof.
  intros Hab Hall. unfold positions.
  rewrite (filter_ext_in (fun j => nth j y 0 =? b)
             (fun j => negb (nth j y 0 =? a))).
  - apply filter_partition.
  - intros j Hj. apply in_seq in Hj.
    destruct (Hall (nth j y 0)) as [E | E]; [apply nth_In; lia | |]; rewrite E.
    + rewrite Nat.eqb_refl. apply Nat.eqb_neq. exact Hab.
    + rewrite Nat.eqb_refl. simpl. apply eq_sym, Bool.negb_true_iff, Nat.eqb_neq. auto.
Qed.

Lemma in_firstn {B : Type} n (l : list B) x : In x (firstn n l) -> In x l.
Proof. intros H. rewrite <- (firstn_skipn n l). apply in_or_app. left. exact H. Qed.

Lemma in_skipn {B : Type} n (l : list B) x : In x (skipn n l) -> In x l.
Proof. intros H. rewrite <- (firstn_skipn n l). apply in_or_app. right. exact H. Qed.

Lemma perm_regroup {B : Type} (f1 f2 s1 s2 : list B) :
  Permutation ((f1 ++ f2) ++ (s1 ++ s2)) ((f1 ++ s1) ++ (f2 ++ s2)).
Proof.
  rewrite <- !app_assoc. apply Permutation_app_head.
  rewrite !app_assoc. apply Permutation_app_tail, Permutation_app_comm.
Qed.

(** A non-empty part of a class's permuted rows holds a row of the class. *)
Lemma part_member c (labels P part : list nat) :
  Permutation P (positions c labels) ->
  (forall i, In i part -> In i P) -> 0 < length part ->
  exists i, In i part /\ nth_error labels i = Some c.
Proof.
  intros HP Hin Hlen. destruct part as [|i part]; [simpl in Hlen; lia|].
  exists i. split; [left; reflexivity|].
  assert (Hi : In i (positions c labels)).
  { apply (Permutation_in _ HP), Hin. left. reflexivity. }
  apply positions_in in Hi as (Hlt & <-). apply nth_error_nth', Hlt.
Qed.

(** *** The split, for any generator *)

Section WithGenerator.

Variable rng : Type.
Variable RandomState : Z -> rng.
Variable rng_permutation : nat -> rng -> list nat * rng.
Variable A : Type.

Hypothesis rng_permutation_perm :
  forall n g, Permutation (fst (rng_permutation n g)) (seq 0 n).

Lemma shuffle_perm l g l' g' :
  shuffle rng rng_permutation l g = (l', g') -> Permutation l' l.
Proof.
  unfold shuffle. pose proof (rng_permutation_perm (length l) g) as P.
  destruct (rng_permutation (length l) g) as [p g1]. simpl in P.
  intros H. injection H as <- _. apply take_perm, P.
Qed.

Lemma approximate_mode_train g :
  approximate_mode rng rng_permutation [20; 20] 32 g = ([16; 16], g).
Proof. reflexivity. Qed.

Lemma approximate_mode_test g :
  approximate_mode rng rng_permutation [4; 4] 8 g = ([4; 4], g).
Proof. reflexivity. Qed.

Lemma draw_two_classes (Ia Ib : list nat) g :
  length Ia = 20 -> length Ib = 20 ->
  exists Pa Pb g',
    draw_classes rng rng_permutation [Ia; Ib] [16; 16] [4; 4] g =
      (firstn 16 Pa ++ firstn 16 Pb, skipn 16 Pa ++ skipn 16 Pb, g') /\
    Permutation Pa Ia /\ Permutation Pb Ib.
Proof.
  intros La Lb. unfold draw_classes.
  pose proof (rng_permutation_perm (length Ia) g) as Qa.
  destruct (rng_permutation (length Ia) g) as [pa g1]. simpl in Qa.
  pose proof (rng_permutation_perm (length Ib) g1) as Qb.
  destruct (rng_permutation (length Ib) g1) as [pb g2]. simpl in Qb.
  apply take_perm in Qa, Qb.
  exists (take Ia pa), (take Ib pb), g2.
  split; [|split; assumption].
  pose proof (Permutation_length Qa) as Ta. pose proof (Permutation_length Qb) as Tb.
  rewrite !app_nil_r.
  rewrite (firstn_all2 (n := 4) (skipn 16 (take Ia pa)))
    by (rewrite length_skipn; lia).
  rewrite (firstn_all2 (n := 4) (skipn 16 (take Ib pb)))
    by (rewrite length_skipn; lia).
  reflexivity.
Qed.

Lemma split_indices_two a b labels seed :
  a < b -> length labels = 40 ->
  count_occ Nat.eq_dec labels a = 20 -> count_occ Nat.eq_dec labels b = 20 ->
  exists train test,
    split_indices rng RandomState rng_permutation labels 32 8 seed = Ok (train, test) /\
    Permutation (train ++ test) (seq 0 40) /\
    (exists i j, In i train /\ nth_error labels i = Some a /\
                 In j train /\ nth_error labels j = Some b) /\
    (exists i j, In i test /\ nth_error labels i = Some a /\
                 In j test /\ nth_error labels j = Some b).
Proof.
  intros Hab L Ca Cb.
  assert (Hall : forall x, In x labels -> x = a \/ x = b)
    by (apply two_values; lia).
  assert (Ia : In a labels) by (apply (count_occ_In Nat.eq_dec); lia).
  assert (Ib : In b labels) by (apply (count_occ_In Nat.eq_dec); lia).
  pose proof (classes_two a b labels Hab Ia Ib Hall) as Hc.
  unfold split_indices, class_counts, class_indices. rewrite Hc.
  simpl map. rewrite Ca, Cb. simpl existsb. cbv iota.
  rewrite approximate_mode_train.
  change (minus_each [20; 20] [16; 16]) with [4; 4].
  rewrite approximate_mode_test.
  destruct (draw_two_classes (positions a labels) (positions b labels)
              (RandomState seed)) as (Pa & Pb & g & E & Qa & Qb);
    [rewrite positions_length; exact Ca | rewrite positions_length; exact Cb |].
  rewrite E.
  destruct (shuffle rng rng_permutation (firstn 16 Pa ++ firstn 16 Pb) g)
    as [train g1] eqn:S1.
  destruct (shuffle rng rng_permutation (skipn 16 Pa ++ skipn 16 Pb) g1)
    as [test g2] eqn:S2.
  apply shuffle_perm in S1, S2.
  pose proof (Permutation_length Qa) as Ta. pose proof (Permutation_length Qb) as Tb.
  rewrite positions_length in Ta, Tb.
  exists train, test. split; [reflexivity|]. split; [|split].
  - rewrite S1, S2, perm_regroup, !firstn_skipn, Qa, Qb, <- L.
    apply positions_two; [lia | exact Hall].
  - destruct (part_member a labels Pa (firstn 16 Pa) Qa) as (i & Hi & Ei);
      [intros i; apply in_firstn | rewrite length_firstn; lia |].
    destruct (part_member b labels Pb (firstn 16 Pb) Qb) as (j & Hj & Ej);
      [intros j; apply in_firstn | rewrite length_firstn; lia |].
    exists i, j. repeat split; try assumption;
      apply (Permutation_in _ (Permutation_sym S1)), in_or_app; auto.
  - destruct (part_member a labels Pa (skipn 16 Pa) Qa) as (i & Hi & Ei);
      [intros i; apply in_skipn | rewrite length_skipn; lia |].
    destruct (part_member b labels Pb (skipn 16 Pb) Qb) as (j & Hj & Ej);
      [intros j; apply in_skipn | rewrite length_skipn; lia |].
    exists i, j. repeat split; try assumption;
      apply (Permutation_in _ (Permutation_sym S2)), in_or_app; auto.
Qed.

Lemma split_two_ordered (features : list A) labels seed ambient a b :
  a < b -> length features = 40 -> length labels = 40 ->
  count_occ Nat.eq_dec labels a = 20 -> count_occ Nat.eq_dec labels b = 20 ->
  exists train test,
    split_indices rng RandomState rng_permutation labels 32 8 seed = Ok (train, test) /\
    Permutation (train ++ test) (seq 0 40) /\
    split rng RandomState rng_permutation A features labels (1 # 5) seed ambient =
      (Ok (select features train, select labels train,
           select features test, select labels test), ambient) /\
    length (select features train) + length (select features test) = 40 /\
    length (select labels train) + length (select labels test) = 40 /\
    (In a (select labels train) /\ In b (select labels train)) /\
    (In a (select labels test) /\ In b (select labels test)).
Proof.
  intros Hab Lf Ll Ca Cb.
  destruct (split_indices_two a b labels seed Hab Ll Ca Cb)
    as (train & test & E & P & (i & j & Hi & Ei & Hj & Ej)
                             & (i' & j' & Hi' & Ei' & Hj' & Ej')).
  exists train, test. split; [exact E|]. split; [exact P|].
  assert (Hlt : forall k, In k (train ++ test) -> k < 40).
  { intros k Hk. apply (Permutation_in _ P), in_seq in Hk. lia. }
  assert (Hlen : length train + length test = 40).
  { rewrite <- length_app, (Permutation_length P). apply length_seq. }
  split; [|split; [|split; [|split; split]]].
  - unfold split. rewrite Ll.
    change (n_test_of (1 # 5) 40) with 8. change (40 - 8) with 32.
    rewrite E. reflexivity.
  - rewrite !select_length; [exact Hlen | |];
      intros k Hk; rewrite Lf; apply Hlt, in_or_app; auto.
  - rewrite !select_length; [exact Hlen | |];
      intros k Hk; rewrite Ll; apply Hlt, in_or_app; auto.
  - exact (select_in labels train i a Hi Ei).
  - exact (select_in labels train j b Hj Ej).
  - exact (select_in labels test i' a Hi' Ei').
  - exact (select_in labels test j' b Hj' Ej').
Qed.


(** C7: two classes of 20 rows each, holdout fraction 0.2, any seed: the
    row numbers of the two partitions together are a permutation of
    0..39 (so the partitions are disjoint and hold every row once), the
    partition sizes add up to 40, and both partitions hold a row of each
    class. *)
Theorem split_two_balanced_classes (features : list A) (labels : list nat)
        (seed : Z) (ambient : rng) (a b : nat) :
  a <> b -> length features = 40 -> length labels = 40 ->
  count_occ Nat.eq_dec labels a = 20 -> count_occ Nat.eq_dec labels b = 20 ->
  exists train test,
    split_indices rng RandomState rng_permutation labels 32 8 seed = Ok (train, test) /\
    Permutation (train ++ test) (seq 0 40) /\
    split rng RandomState rng_permutation A features labels (1 # 5) seed ambient =
      (Ok (select features train, select labels train,
           select features test, select labels test), ambient) /\
    length (select features train) + length (select features test) = 40 /\
    length (select labels train) + length (select labels test) = 40 /\
    (In a (select labels train) /\ In b (select labels train)) /\
    (In a (select labels test) /\ In b (select labels test)).
Proof.
  intros Hab Lf Ll Ca Cb.
  destruct (Nat.lt_total a b) as [Hlt | [Heq | Hgt]]; [|contradiction|].
  - apply split_two_ordered; assumption.
  - destruct (split_two_ordered features labels seed ambient b a Hgt Lf Ll Cb Ca)
      as (train & test & E & P & S & F1 & F2 & (T1 & T2) & (T3 & T4)).
    exists train, test. repeat split; assumption.
Qed.

(** C8: when some class of the dataset has fewer than two rows, the
    split fails with InsufficientSamplesError. *)
Theorem split_insufficient_samples (features : list A) (labels : list nat)
        (holdout_fraction : Q) (seed : Z) (ambient : rng) (c : nat) :
  In c labels -> count_occ Nat.eq_dec labels c < 2 ->
  split rng RandomState rng_permutation A features labels
    holdout_fraction seed ambient = (Raise InsufficientSamplesError, ambient).
Proof.
  intros Hc Hn. unfold split, split_indices.
  replace (existsb (fun n => n <? 2) (class_counts labels)) with true; [reflexivity|].
  symmetry. apply existsb_exists. exists (count_occ Nat.eq_dec labels c). split.
  - unfold class_counts. apply in_map, classes_in, Hc.
  - apply Nat.ltb_lt, Hn.
Qed.

End WithGenerator.

(** *** The claims with the sample generator *)

Example approximate_mode_remainder :
  fst (approximate_mode Lcg.state Lcg.permutation [3; 3; 4] 7 5%Z) = [2; 2; 3].
Proof. reflexivity. Qed.

(** In float64, too, a fifth of 40 rows is 8 rows: 0.2 * 40 is exactly 8. *)
Example holdout_rows_float64 :
  PrimFloat.eqb (PrimFloat.mul 0x1.999999999999ap-3%float 40%float) 8%float = true /\
  n_test_of (1 # 5) 40 = 8.
Proof. split; reflexivity. Qed.

Example split_sample_sizes :
  match fst (split Lcg.state Lcg.seed Lcg.permutation nat
               Samples.row_ids Samples.two_classes (1 # 5) 42 7%Z) with
  | Ok (X_train, y_train, X_test, y_test) =>
      (length X_train, count_occ Nat.eq_dec y_train 0,
       length X_test, count_occ Nat.eq_dec y_test 0) = (32, 16, 8, 4)
  | Raise _ => False
  end.
Proof. vm_compute. reflexivity. Qed.

Lemma lcg_permutation_perm n g :
  Permutation (fst (Lcg.permutation n g)) (seq 0 n).
Proof.
  unfold Lcg.permutation. simpl fst.
  rewrite Permutation_app_comm, firstn_skipn. reflexivity.
Qed.

Lemma split_two_balanced_classes_witness :
  (0 <> 1 /\ length Samples.row_ids = 40 /\ length Samples.two_classes = 40 /\
   count_occ Nat.eq_dec Samples.two_classes 0 = 20 /\
   count_occ Nat.eq_dec Samples.two_classes 1 = 20) /\
  exists train test,
    split_indices Lcg.state Lcg.seed Lcg.permutation Samples.two_classes 32 8 42
      = Ok (train, test) /\
    Permutation (train ++ test) (seq 0 40) /\
    split Lcg.state Lcg.seed Lcg.permutation nat
      Samples.row_ids Samples.two_classes (1 # 5) 42 7%Z =
      (Ok (select Samples.row_ids train, select Samples.two_classes train,
           select Samples.row_ids test, select Samples.two_classes test), 7%Z) /\
    length (select Samples.row_ids train) + length (select Samples.row_ids test) = 40 /\
    length (select Samples.two_classes train)
      + length (select Samples.two_classes test) = 40 /\
    (In 0 (select Samples.two_classes train) /\ In 1 (select Samples.two_classes train)) /\
    (In 0 (select Samples.two_classes test) /\ In 1 (select Samples.two_classes test)).
Proof.
  split; [repeat split; [discriminate | reflexivity ..]|].
  apply (split_two_balanced_classes Lcg.state Lcg.seed Lcg.permutation nat
           lcg_permutation_perm Samples.row_ids Samples.two_classes 42 7%Z 0 1);
    [discriminate | reflexivity ..].
Defined.

Lemma split_insufficient_samples_witness :
  (In 1 Samples.lonely_class /\ count_occ Nat.eq_dec Samples.lonely_class 1 < 2) /\
  split Lcg.state Lcg.seed Lcg.permutation nat
    [10; 11; 12; 13] Samples.lonely_class (1 # 5) 42 7%Z
    = (Raise InsufficientSamplesError, 7%Z).
Proof.
  assert (H1 : In 1 Samples.lonely_class) by (simpl; auto).
  assert (H2 : count_occ Nat.eq_dec Samples.lonely_class 1 < 2) by (simpl; lia).
  split; [split; assumption|].
  apply (split_insufficient_samples Lcg.state Lcg.seed Lcg.permutation nat
           [10; 11; 12; 13] Samples.lonely_class (1 # 5) 42 7%Z 1 H1 H2).
Defined.

End SplitFacts.

(** ** More about normalize_landmarks *)

Module NormalizerMore.
Import Normalizer NormalizerFacts.

Section AnyArithmetic.

Context {num : Type} {N : Number num}.

Lemma reshape3_raise (flat : list num) e :
  reshape3 flat = Raise e -> e = ValueError /\ length flat mod 3 <> 0.
Proof.
  induction flat as [| x | x y | x y z rest IH] using list_ind3; intros H.
  - discriminate.
  - injection H as <-. split; [reflexivity | simpl; discriminate].
  - injection H as <-. split; [reflexivity | simpl; discriminate].
  - rewrite reshape3_cons in H. destruct (reshape3 rest) as [r|e'] eqn:E; [discriminate|].
    injection H as <-. destruct (IH eq_refl) as (-> & Hm). split; [reflexivity|].
    change (length (x :: y :: z :: rest)) with (3 + length rest).
    replace (3 + length rest) with (length rest + 1 * 3) by lia.
    rewrite Nat.Div0.mod_add. exact Hm.
Qed.

Lemma reshape3_ok_mod (flat : list num) rows :
  reshape3 flat = Ok rows -> length flat mod 3 = 0.
Proof.
  intros H. rewrite (reshape3_length flat rows H), Nat.mul_comm.
  apply Nat.Div0.mod_mul.
Qed.

Lemma reshape3_nil_inv (flat : list num) : reshape3 flat = Ok [] -> flat = [].
Proof. intros H. apply flatten_reshape3 in H. symmetry. exact H. Qed.

Lemma normalized_length (w : vec3 num) rows :
  length (flatten (let c := map (vsub w) (w :: rows) in
                   if scales c then map (vdiv (max_dist c)) c else c))
  = 3 * S (length rows).
Proof.
  cbv zeta. rewrite flatten_length. f_equal.
  destruct (scales _); rewrite ?length_map; reflexivity.
Qed.

Lemma normalize_cases (flat : list num) :
  match normalize_landmarks flat with
  | Ok out => flat <> [] /\ length flat mod 3 = 0 /\ length out = length flat
  | Raise IndexError => flat = []
  | Raise ValueError => length flat mod 3 <> 0
  | Raise _ => False
  end.
Proof.
  destruct (reshape3 flat) as [[|w rows]|e] eqn:E.
  - unfold normalize_landmarks. rewrite E. simpl. apply reshape3_nil_inv, E.
  - rewrite (normalize_rows flat w rows E), normalized_length.
    pose proof (reshape3_length flat _ E) as L. simpl length in L.
    split; [|split].
    + intros ->. discriminate.
    + apply (reshape3_ok_mod flat _ E).
    + lia.
  - unfold normalize_landmarks. rewrite E. simpl.
    destruct (reshape3_raise flat e E) as (-> & Hm). exact Hm.
Qed.

(** X1: which inputs the function accepts, in any arithmetic.  The empty
    input, and no other, raises IndexError; a length that is no multiple
    of 3, and no other, raises ValueError; every other input gives a
    vector, which is as long as the input.  The length 63 is not asked
    for. *)
Theorem normalize_outcome (flat : list num) :
  (normalize_landmarks flat = Raise IndexError <-> flat = []) /\
  (normalize_landmarks flat = Raise ValueError <-> length flat mod 3 <> 0) /\
  ((exists out, normalize_landmarks flat = Ok out) <->
   flat <> [] /\ length flat mod 3 = 0) /\
  (forall out, normalize_landmarks flat = Ok out -> length out = length flat).
Proof.
  pose proof (normalize_cases flat) as H.
  destruct (normalize_landmarks flat) as [out|e].
  - destruct H as (Hne & Hm & Hl). split; [|split; [|split]].
    + split; [discriminate | intros E; contradiction].
    + split; [discriminate | intros E; contradiction].
    + split; [auto | intros _; exists out; reflexivity].
    + intros out' E. injection E as <-. exact Hl.
  - destruct e; try contradiction.
    + split; [|split; [|split]].
      * split; [discriminate | intros ->; exfalso; apply H; reflexivity].
      * split; auto.
      * split; [intros (out & E); discriminate E | intros (_ & Hm); contradiction].
      * discriminate.
    + subst flat. split; [|split; [|split]].
      * split; reflexivity.
      * split; [discriminate | intros Hm; exfalso; apply Hm; reflexivity].
      * split; [intros (out & E); discriminate E
               | intros (Hne & _); exfalso; apply Hne; reflexivity].
      * discriminate.
Qed.

End AnyArithmetic.

End NormalizerMore.

Module Float64More.
Import Normalizer NormalizerFacts Float64Facts.
Open Scope float_scope.

Ltac f64_arith :=
  cbn [np_zero np_add np_subtract np_multiply np_divide np_sqrt np_maximum
       np_greater float64] in *.

(** *** NaN *)

Lemma is_nan_inv x : is_nan x = true -> x = nan.
Proof.
  unfold is_nan. rewrite FloatAxioms.eqb_spec. intros H.
  apply Prim2SF_inj. change (Prim2SF nan) with S754_nan.
  destruct (Prim2SF x) as [s | s | | s m e]; try reflexivity; exfalso.
  - discriminate H.
  - destruct s; discriminate H.
  - unfold SFeqb, SFcompare in H.
    destruct s; rewrite Z.compare_refl, Pos.compare_cont_refl in H; discriminate H.
Qed.

Lemma sub_nan_l y : nan - y = nan.
Proof.
  apply Prim2SF_inj. rewrite FloatAxioms.sub_spec.
  change (Prim2SF nan) with S754_nan. reflexivity.
Qed.

Lemma sub_nan_r x : x - nan = nan.
Proof.
  apply Prim2SF_inj. rewrite FloatAxioms.sub_spec.
  change (Prim2SF nan) with S754_nan. destruct (Prim2SF x); reflexivity.
Qed.

Lemma add_nan_l y : nan + y = nan.
Proof.
  apply Prim2SF_inj. rewrite FloatAxioms.add_spec.
  change (Prim2SF nan) with S754_nan. reflexivity.
Qed.

Lemma add_nan_r x : x + nan = nan.
Proof.
  apply Prim2SF_inj. rewrite FloatAxioms.add_spec.
  change (Prim2SF nan) with S754_nan. destruct (Prim2SF x); reflexivity.
Qed.

Lemma leb_nan_l a : (nan <=? a) = false.
Proof.
  rewrite FloatAxioms.leb_spec. change (Prim2SF nan) with S754_nan. reflexivity.
Qed.

Lemma maximum_nan_l b : np_maximum nan b = nan.
Proof. f64_arith. change (is_nan nan) with true. rewrite Bool.orb_true_r. reflexivity. Qed.

Lemma maximum_nan_r a : np_maximum a nan = nan.
Proof.
  f64_arith. rewrite leb_nan_l. simpl. destruct (is_nan a) eqn:E; [|reflexivity].
  apply is_nan_inv, E.
Qed.

Lemma np_max_nan_first (ds : list float) : np_max nan ds = nan.
Proof.
  induction ds as [|e ds IH]; [reflexivity|].
  change (np_max nan (e :: ds)) with (np_max (np_maximum nan e) ds).
  rewrite maximum_nan_l. exact IH.
Qed.

Lemma np_max_nan (ds : list float) : forall d, In nan ds -> np_max d ds = nan.
Proof.
  induction ds as [|e ds IH]; intros d H; [contradiction|].
  change (np_max d (e :: ds)) with (np_max (np_maximum d e) ds).
  destruct H as [-> | H]; [|apply IH, H].
  rewrite maximum_nan_r. apply np_max_nan_first.
Qed.

Lemma norm3_nan (x y z : float) :
  x = nan \/ y = nan \/ z = nan -> norm3 (x, y, z) = nan.
Proof.
  unfold norm3. f64_arith. intros [-> | [-> | ->]].
  - change (nan * nan) with nan. rewrite !add_nan_l. reflexivity.
  - change (nan * nan) with nan. rewrite add_nan_r, add_nan_l. reflexivity.
  - change (nan * nan) with nan. rewrite add_nan_r. reflexivity.
Qed.

Lemma max_dist_nan (c : list (vec3 float)) x y z :
  In (x, y, z) c -> x = nan \/ y = nan \/ z = nan -> max_dist c = nan.
Proof.
  intros Hin Hn. unfold max_dist. destruct c as [|q c]; [contradiction|].
  simpl map. destruct Hin as [-> | Hin].
  - rewrite (norm3_nan x y z Hn). apply np_max_nan_first.
  - apply np_max_nan. rewrite <- (norm3_nan x y z Hn). apply in_map, Hin.
Qed.

(** *** The entries of the centred, unscaled rows *)

Lemma centred_entry (a b c : float) rows : forall i,
  (i < 3 * length rows)%nat ->
  nth i (flatten (map (vsub (a, b, c)) rows)) 0 =
  nth i (flatten rows) 0 - nth (i mod 3) [a; b; c] 0.
Proof.
  induction rows as [|[[x y] z] rows IH]; intros i Hi; [simpl in Hi; lia|].
  change (flatten (map (vsub (a, b, c)) ((x, y, z) :: rows)))
    with ((x - a) :: (y - b) :: (z - c) :: flatten (map (vsub (a, b, c)) rows)).
  change (flatten ((x, y, z) :: rows)) with (x :: y :: z :: flatten rows).
  destruct i as [|[|[|j]]]; try reflexivity.
  change (nth (S (S (S j))) (x - a :: y - b :: z - c :: ?l) 0) with (nth j l 0).
  simpl nth at 1 2.
  replace (S (S (S j)) mod 3)%nat with (j mod 3)%nat.
  - apply IH. simpl in Hi. lia.
  - replace (S (S (S j))) with (j + 1 * 3)%nat by lia.
    rewrite Nat.Div0.mod_add. reflexivity.
Qed.

Lemma flatten_in (rows : list (vec3 float)) v :
  In v (flatten rows) ->
  exists x y z, In (x, y, z) rows /\ (v = x \/ v = y \/ v = z).
Proof.
  induction rows as [|[[x y] z] rows IH]; [contradiction|].
  change (flatten ((x, y, z) :: rows)) with (x :: y :: z :: flatten rows).
  intros [<- | [<- | [<- | H]]].
  - exists x, y, z. split; [left; reflexivity | auto].
  - exists x, y, z. split; [left; reflexivity | auto].
  - exists x, y, z. split; [left; reflexivity | auto].
  - destruct (IH H) as (x' & y' & z' & Hin & Hv).
    exists x', y', z'. split; [right; exact Hin | exact Hv].
Qed.

Lemma in_flatten (rows : list (vec3 float)) x y z :
  In (x, y, z) rows ->
  In x (flatten rows) /\ In y (flatten rows) /\ In z (flatten rows).
Proof.
  induction rows as [|[[x' y'] z'] rows IH]; [contradiction|].
  change (flatten ((x', y', z') :: rows)) with (x' :: y' :: z' :: flatten rows).
  intros [E | H].
  - injection E as -> -> ->. simpl. repeat split; auto.
  - destruct (IH H) as (Hx & Hy & Hz). simpl. repeat split; auto 6.
Qed.

Lemma nth_wrist (a b c : float) rest i :
  nth (i mod 3) (a :: b :: c :: rest) 0 = nth (i mod 3) [a; b; c] 0.
Proof.
  pose proof (Nat.mod_upper_bound i 3 ltac:(lia)) as H.
  destruct (i mod 3)%nat as [|[|[|j]]]; try reflexivity. lia.
Qed.

(** X2: a NaN among the entries is not rejected and switches the scaling
    off.  For an input of accepted length with a NaN entry the function
    returns, without raising, the merely centred vector: entry i is the
    input's entry i minus the wrist's entry of the same coordinate, and the
    result holds a NaN. *)
Theorem nan_disables_scaling (flat : list float) (k : nat) :
  length flat = (3 * S k)%nat -> existsb is_nan flat = true ->
  exists out, normalize_landmarks flat = Ok out /\
    length out = length flat /\
    (forall i, (i < length flat)%nat ->
       nth i out 0 = nth i flat 0 - nth (i mod 3) flat 0) /\
    existsb is_nan out = true.
Proof.
  intros L Hn. destruct (reshape3_rows flat k L) as ([[a b] c] & rows & E & Lr).
  pose proof (flatten_reshape3 flat _ E) as F.
  apply existsb_exists in Hn as (v & Hv & Nv). apply is_nan_inv in Nv. subst v.
  rewrite <- F in Hv. apply flatten_in in Hv as (x & y & z & Hin & Hxyz).
  pose proof (normalize_rows flat (a, b, c) rows E) as NR. cbv zeta in NR.
  match type of NR with context [scales ?r] => set (cs := r) in * end.
  assert (Hc : In (x - a, y - b, z - c) cs).
  { unfold cs. apply in_map_iff. exists (x, y, z). split; [reflexivity | exact Hin]. }
  assert (Hc' : x - a = nan \/ y - b = nan \/ z - c = nan).
  { destruct Hxyz as [<- | [<- | <-]]; rewrite sub_nan_l; auto. }
  assert (M : max_dist cs = nan) by (apply (max_dist_nan cs _ _ _ Hc Hc')).
  assert (S : scales cs = false) by (unfold scales; rewrite M; reflexivity).
  rewrite S in NR.
  exists (flatten cs). split; [exact NR|]. split; [|split].
  - rewrite flatten_length. unfold cs. rewrite length_map, L. simpl length. lia.
  - intros i Hi. unfold cs. rewrite centred_entry by (simpl length; lia).
    rewrite F. f_equal. rewrite <- F.
    change (flatten ((a, b, c) :: rows)) with (a :: b :: c :: flatten rows).
    symmetry. apply nth_wrist.
  - apply existsb_exists. exists nan. split; [|reflexivity].
    destruct (in_flatten cs _ _ _ Hc) as (Hx & Hy & Hz).
    destruct Hc' as [<- | [<- | <-]]; assumption.
Qed.

(** *** A wrist at the origin *)

Lemma sub_zero_r x : x - 0 = x.
Proof.
  apply Prim2SF_inj. rewrite FloatAxioms.sub_spec.
  change (Prim2SF 0) with (S754_zero false).
  destruct (Prim2SF x) as [s | s | | s m e]; try reflexivity.
  destruct s; reflexivity.
Qed.

Lemma vsub_origin (p : vec3 float) : vsub vzero p = p.
Proof.
  destruct p as [[x y] z]. unfold vsub, vzero. f64_arith.
  rewrite !sub_zero_r. reflexivity.
Qed.

Lemma flatten_vdiv m (rows : list (vec3 float)) :
  flatten (map (vdiv m) rows) = map (fun x => x / m) (flatten rows).
Proof.
  induction rows as [|[[x y] z] rows IH]; [reflexivity|].
  change (flatten (map (vdiv m) ((x, y, z) :: rows)))
    with ((x / m) :: (y / m) :: (z / m) :: flatten (map (vdiv m) rows)).
  rewrite IH. reflexivity.
Qed.

(** X3: with the wrist at the origin the function only rescales.  For
    every input of accepted length whose first three entries are 0, also
    one with NaN or infinite entries, the result is the input divided entry
    by entry by its largest landmark norm when that is greater than 0, and
    the input itself otherwise. *)
Theorem origin_wrist_only_rescales (flat : list float) (k : nat) :
  length flat = (3 * S k)%nat -> firstn 3 flat = [0; 0; 0] ->
  exists rows, reshape3 flat = Ok rows /\
    normalize_landmarks flat =
    Ok (if np_greater (max_dist rows) 0
        then map (fun x => x / max_dist rows) flat else flat).
Proof.
  intros L H0. destruct (reshape3_rows flat k L) as ([[a b] c] & rows & E & Lr).
  pose proof (flatten_reshape3 flat _ E) as F.
  rewrite <- F in H0.
  change (flatten ((a, b, c) :: rows)) with (a :: b :: c :: flatten rows) in H0.
  injection H0 as -> -> ->.
  exists ((0, 0, 0) :: rows). split; [exact E|].
  pose proof (normalize_rows flat (0, 0, 0) rows E) as NR. cbv zeta in NR.
  match type of NR with context [scales ?r] =>
    replace r with ((0, 0, 0) :: rows : list (vec3 float)) in NR
  end.
  - rewrite NR. unfold scales. f64_arith.
    destruct (0 <? max_dist ((0, 0, 0) :: rows)).
    + rewrite flatten_vdiv.
      match goal with |- context [flatten ?r] =>
        replace (flatten r) with flat by (symmetry; exact F) end.
      reflexivity.
    + f_equal. exact F.
  - rewrite <- (map_id ((0, 0, 0) :: rows)) at 1. apply map_ext.
    intros p. symmetry. apply vsub_origin.
Qed.

(** *** The wrist decides the anchor *)

(** A number that is not finite minus itself is NaN. *)
Lemma sub_self_not_finite x : is_finite x = false -> x - x = nan.
Proof.
  unfold is_finite, is_nan, is_infinity.
  rewrite !FloatAxioms.eqb_spec, FloatAxioms.abs_spec. intros H.
  apply Prim2SF_inj. rewrite FloatAxioms.sub_spec.
  change (Prim2SF nan) with S754_nan. change (Prim2SF infinity) with (S754_infinity false) in H.
  destruct (Prim2SF x) as [s | s | | s m e].
  - destruct s; discriminate H.
  - destruct s; reflexivity.
  - reflexivity.
  - exfalso.
    assert (E : SFeqb (S754_finite s m e) (S754_finite s m e) = true).
    { unfold SFeqb, SFcompare.
      destruct s; rewrite Z.compare_refl, Pos.compare_cont_refl; reflexivity. }
    rewrite E in H. discriminate H.
Qed.

(** A wrist with a coordinate that minus itself is NaN. *)
Lemma wrist_not_finite (flat : list float) a b c rows :
  reshape3 flat = Ok ((a, b, c) :: rows) ->
  a - a = nan \/ b - b = nan \/ c - c = nan ->
  exists out, normalize_landmarks flat = Ok out /\
    existsb is_nan (firstn 3 out) = true /\
    forall i, (i < length flat)%nat ->
      nth i out 0 = nth i flat 0 - nth (i mod 3) flat 0.
Proof.
  intros E Hn. pose proof (flatten_reshape3 flat _ E) as F.
  pose proof (reshape3_length flat _ E) as L.
  pose proof (normalize_rows flat (a, b, c) rows E) as NR. cbv zeta in NR.
  match type of NR with context [scales ?r] => set (cs := r) in * end.
  assert (Hcs : cs = (a - a, b - b, c - c) :: map (vsub (a, b, c)) rows) by reflexivity.
  assert (M : max_dist cs = nan).
  { apply (max_dist_nan cs (a - a) (b - b) (c - c)); [|exact Hn].
    rewrite Hcs. left. reflexivity. }
  assert (S : scales cs = false) by (unfold scales; rewrite M; reflexivity).
  rewrite S in NR. exists (flatten cs). split; [exact NR|]. split.
  - rewrite Hcs.
    change (firstn 3 (flatten ((a - a, b - b, c - c) :: map (vsub (a, b, c)) rows)))
      with [a - a; b - b; c - c].
    destruct Hn as [-> | [-> | ->]]; simpl;
      rewrite ?Bool.orb_true_r; reflexivity.
  - intros i Hi. unfold cs. rewrite centred_entry by (simpl length in *; lia).
    f_equal; [exact (f_equal (fun l => nth i l 0) F)|].
    rewrite <- F. symmetry. exact (nth_wrist a b c (flatten rows) i).
Qed.

(** X4: the wrist alone decides the anchor of the result, for any
    accepted length and whatever the other entries are, NaN and
    infinities included.  When the three wrist coordinates are finite the
    first three entries of the result are exactly 0.  When one of them is
    infinite or NaN, nothing is scaled, the result is the input minus the
    wrist, and its first three entries hold a NaN. *)
Theorem wrist_decides_anchor (flat : list float) (k : nat) :
  length flat = (3 * S k)%nat ->
  exists out, normalize_landmarks flat = Ok out /\
    (finite (firstn 3 flat) = true -> firstn 3 out = [0; 0; 0]) /\
    (finite (firstn 3 flat) = false ->
       existsb is_nan (firstn 3 out) = true /\
       forall i, (i < length flat)%nat ->
         nth i out 0 = nth i flat 0 - nth (i mod 3) flat 0).
Proof.
  intros L. destruct (reshape3_rows flat k L) as ([[a b] c] & rows & E & Lr).
  pose proof (flatten_reshape3 flat _ E) as F.
  pose proof (normalize_rows flat (a, b, c) rows E) as NR. cbv zeta in NR.
  match type of NR with context [scales ?r] => set (cs := r) in * end.
  assert (Hcs : cs = (a - a, b - b, c - c) :: map (vsub (a, b, c)) rows) by reflexivity.
  assert (W : firstn 3 flat = [a; b; c]) by (rewrite <- F; reflexivity).
  rewrite W. unfold finite. simpl forallb. rewrite Bool.andb_true_r.
  destruct (is_finite a) eqn:Fa; [destruct (is_finite b) eqn:Fb;
    [destruct (is_finite c) eqn:Fc|]|].
  - (* a finite wrist *)
    assert (Hz : cs = vzero :: map (vsub (a, b, c)) rows).
    { rewrite Hcs, !sub_diag by assumption. reflexivity. }
    destruct (scales cs) eqn:S.
    + eexists. split; [exact NR|]. split; [|discriminate]. intros _.
      set (m := max_dist cs). rewrite Hz.
      change (map (vdiv m) (vzero :: map (vsub (a, b, c)) rows))
        with (vdiv m vzero :: map (vdiv m) (map (vsub (a, b, c)) rows)).
      rewrite (f64_vdiv_vzero m S). reflexivity.
    + eexists. split; [exact NR|]. split; [|discriminate]. intros _.
      rewrite Hz. reflexivity.
  - destruct (wrist_not_finite flat a b c rows E) as (out & O & H);
      [right; right; apply sub_self_not_finite, Fc|].
    exists out. split; [exact O|]. split; [discriminate | intros _; exact H].
  - destruct (wrist_not_finite flat a b c rows E) as (out & O & H);
      [right; left; apply sub_self_not_finite, Fb|].
    exists out. split; [exact O|]. split; [discriminate | intros _; exact H].
  - destruct (wrist_not_finite flat a b c rows E) as (out & O & H);
      [left; apply sub_self_not_finite, Fa|].
    exists out. split; [exact O|]. split; [discriminate | intros _; exact H].
Qed.

Lemma nan_disables_scaling_witness :
  (length Demo.nan_hand64 = (3 * 2)%nat /\ existsb is_nan Demo.nan_hand64 = true) /\
  exists out, normalize_landmarks Demo.nan_hand64 = Ok out /\
    length out = length Demo.nan_hand64 /\
    (forall i, (i < length Demo.nan_hand64)%nat ->
       nth i out 0 = nth i Demo.nan_hand64 0 - nth (i mod 3) Demo.nan_hand64 0) /\
    existsb is_nan out = true.
Proof.
  split; [split; reflexivity|].
  apply (nan_disables_scaling Demo.nan_hand64 1); reflexivity.
Defined.

Lemma origin_wrist_only_rescales_witness :
  (length Samples.pointing64 = (3 * 21)%nat /\
   firstn 3 Samples.pointing64 = [0; 0; 0]) /\
  exists rows, reshape3 Samples.pointing64 = Ok rows /\
    normalize_landmarks Samples.pointing64 =
    Ok (if np_greater (max_dist rows) 0
        then map (fun x => x / max_dist rows) Samples.pointing64
        else Samples.pointing64).
Proof.
  split; [split; reflexivity|].
  apply (origin_wrist_only_rescales Samples.pointing64 20); reflexivity.
Defined.

Lemma wrist_decides_anchor_witness :
  length Demo.nan_hand64 = (3 * 2)%nat /\
  exists out, normalize_landmarks Demo.nan_hand64 = Ok out /\
    (finite (firstn 3 Demo.nan_hand64) = true -> firstn 3 out = [0; 0; 0]) /\
    (finite (firstn 3 Demo.nan_hand64) = false ->
       existsb is_nan (firstn 3 out) = true /\
       forall i, (i < length Demo.nan_hand64)%nat ->
         nth i out 0 = nth i Demo.nan_hand64 0 - nth (i mod 3) Demo.nan_hand64 0).
Proof.
  split; [reflexivity|].
  apply (wrist_decides_anchor Demo.nan_hand64 1). reflexivity.
Defined.

(** A wrist at infinity: every entry of the result is NaN or infinite. *)
Example infinite_wrist :
  normalize_landmarks [infinity; 0; 0; 1; 2; 3]
  = Ok [nan; 0; 0; neg_infinity; 2; 3].
Proof. reflexivity. Qed.

End Float64More.

(** ** More in exact arithmetic *)

Module ExactMore.
Import Normalizer NormalizerFacts ExactFacts Scaling.
Open Scope R_scope.












End ExactMore.

(** ** The preprocessing loop *)

Module PreprocessFacts.
Import Normalizer NormalizerFacts NormalizerMore Preprocess.

Section AnyArithmetic.

Context {num : Type} {N : Number num}.

Lemma loop_step (s : sample num) raw X y flat out l :
  item_features s = Some flat -> normalize_landmarks flat = Ok out ->
  item_label s = Some l ->
  loop (s :: raw) X y = loop raw (X ++ [out]) (y ++ [l]).
Proof.
  intros F O L. simpl. unfold getitem_features, getitem_label.
  rewrite F, O, L. reflexivity.
Qed.

Lemma loop_return (raw : list (sample num)) : forall X y X' y',
  loop raw X y = Return (X', y') ->
  exists Xr yr, X' = X ++ Xr /\ y' = y ++ yr /\
                Forall2 row_of raw Xr /\ map item_label raw = map Some yr.
Proof.
  induction raw as [|s raw IH]; intros X y X' y' H.
  - injection H as <- <-. exists [], []. rewrite !app_nil_r. repeat split. constructor.
  - simpl in H. unfold getitem_features, getitem_label in H.
    destruct (item_features s) as [flat|] eqn:F; [|discriminate].
    destruct (normalize_landmarks flat) as [out|e] eqn:O; [|discriminate].
    destruct (item_label s) as [l|] eqn:L; [|discriminate].
    destruct (IH _ _ _ _ H) as (Xr & yr & -> & -> & R & M).
    exists (out :: Xr), (l :: yr). rewrite <- !app_assoc. repeat split.
    + constructor; [exists flat; auto | exact R].
    + simpl. rewrite L, M. reflexivity.
Qed.

Lemma loop_rows (raw : list (sample num)) : forall Xr yr X y,
  Forall2 row_of raw Xr -> map item_label raw = map Some yr ->
  loop raw X y = Return (X ++ Xr, y ++ yr).
Proof.
  induction raw as [|s raw IH]; intros Xr yr X y R M.
  - inversion R; subst. destruct yr; [|discriminate].
    rewrite !app_nil_r. reflexivity.
  - inversion R as [|? out ? Xr' (flat & F & O) R']; subst.
    destruct yr as [|l yr]; [discriminate|]. simpl in M. injection M as L M.
    rewrite (loop_step s raw X y flat out l F O L), (IH Xr' yr _ _ R' M).
    rewrite <- !app_assoc. reflexivity.
Qed.

(** X7: what the loop builds.  It ends normally with the lists [X] and
    [y] exactly when [X] holds, record by record and in order, the
    normalised features and [y] the labels; so [X], [y] and [raw_data]
    have the same length and row [i] of [X] belongs to label [i] of [y]. *)
Theorem preprocess_rows (raw_data : list (sample num)) X y :
  preprocess raw_data = Return (X, y) <->
  Forall2 row_of raw_data X /\ map item_label raw_data = map Some y.
Proof.
  unfold preprocess. split.
  - intros H. destruct (loop_return raw_data _ _ _ _ H) as (Xr & yr & -> & -> & R & M).
    auto.
  - intros (R & M). exact (loop_rows raw_data X y [] [] R M).
Qed.

Lemma accepted_inv (s : sample num) :
  accepted s = true ->
  exists flat l out, item_features s = Some flat /\ item_label s = Some l /\
                     normalize_landmarks flat = Ok out.
Proof.
  unfold accepted. destruct (item_features s) as [flat|]; [|discriminate].
  destruct (item_label s) as [l|]; [|discriminate].
  intros H. apply andb_prop in H as (H0 & H3).
  apply Bool.negb_true_iff, Nat.eqb_neq in H0. apply Nat.eqb_eq in H3.
  pose proof (normalize_cases flat) as O.
  destruct (normalize_landmarks flat) as [out|e] eqn:E.
  - exists flat, l, out. repeat split. exact E.
  - exfalso. destruct e; try contradiction.
    subst flat. apply H0. reflexivity.
Qed.

Lemma row_accepted (s : sample num) out l :
  row_of s out -> item_label s = Some l -> accepted s = true.
Proof.
  intros (flat & F & O) L. unfold accepted. rewrite F, L.
  pose proof (normalize_cases flat) as Ho. rewrite O in Ho.
  destruct Ho as (Hne & Hm & _). apply andb_true_intro. split.
  - apply Bool.negb_true_iff, Nat.eqb_neq. intros E. apply Hne.
    destruct flat; [reflexivity | discriminate].
  - apply Nat.eqb_eq, Hm.
Qed.

(** X8: which datasets pass.  The loop ends normally exactly when every
    record has both keys and features whose length is a positive multiple
    of 3; lengths other than 63 pass. *)
Theorem preprocess_accepts (raw_data : list (sample num)) :
  (exists X y, preprocess raw_data = Return (X, y)) <->
  forallb accepted raw_data = true.
Proof.
  split.
  - intros (X & y & H). unfold preprocess in H.
    destruct (loop_return raw_data _ _ _ _ H) as (Xr & yr & _ & -> & R & M).
    simpl app in *. clear H. revert yr M. induction R as [|s out raw Xr Hr R IH]; intros y M; [reflexivity|].
    destruct y as [|l y]; [discriminate|]. simpl in M. injection M as L M.
    simpl. rewrite (row_accepted s out l Hr L). apply (IH y M).
  - intros H. unfold preprocess. generalize (@nil (list num)) (@nil string).
    induction raw_data as [|s raw IH]; intros X y.
    + exists X, y. reflexivity.
    + simpl in H. apply andb_prop in H as (Hs & H).
      destruct (accepted_inv s Hs) as (flat & l & out & F & L & O).
      rewrite (loop_step s raw X y flat out l F O L). apply (IH H).
Qed.

(** X9: the first record that does not pass decides, and the records
    after it are not looked at.  After records that pass, a record without
    ["features"] raises KeyError for that key; features whose length is no
    multiple of 3 raise ValueError and empty features IndexError, whether or
    not the record has a label; a record whose features pass and that has
    no ["label"] raises KeyError for that key. *)
Theorem preprocess_first_failure (good : list (sample num)) bad rest :
  forallb accepted good = true ->
  (item_features bad = None ->
   preprocess (good ++ bad :: rest) = Throw (KeyError "features")) /\
  (forall flat, item_features bad = Some flat -> length flat mod 3 <> 0 ->
   preprocess (good ++ bad :: rest) = Throw (Raised ValueError)) /\
  (item_features bad = Some [] ->
   preprocess (good ++ bad :: rest) = Throw (Raised IndexError)) /\
  (forall flat, item_features bad = Some flat -> flat <> [] ->
   length flat mod 3 = 0 -> item_label bad = None ->
   preprocess (good ++ bad :: rest) = Throw (KeyError "label")).
Proof.
  intros H. unfold preprocess. generalize (@nil (list num)) (@nil string).
  induction good as [|s good IH]; intros X y.
  - simpl app. simpl loop. unfold getitem_features, getitem_label.
    split; [|split; [|split]].
    + intros ->. reflexivity.
    + intros flat -> Hm. pose proof (normalize_cases flat) as O.
      destruct (normalize_landmarks flat) as [out|e].
      * destruct O as (_ & O & _). contradiction.
      * destruct e; try contradiction; [reflexivity|].
        subst flat. exfalso. apply Hm. reflexivity.
    + intros ->. reflexivity.
    + intros flat -> Hne Hm ->. pose proof (normalize_cases flat) as O.
      destruct (normalize_landmarks flat) as [out|e]; [reflexivity|].
      exfalso. destruct e; try contradiction.
  - simpl in H. apply andb_prop in H as (Hs & H).
    destruct (accepted_inv s Hs) as (flat & l & out & F & L & O).
    simpl app. rewrite (loop_step s _ X y flat out l F O L). apply (IH H).
Qed.

End AnyArithmetic.

Example preprocess_records :
  preprocess Demo.records =
  Return (Demo.rows_of Demo.records,
          ["yes"; "no"; "yes"; "no"; "yes"; "no"; "yes"; "no"; "yes"; "no"]%string) /\
  preprocess Demo.ragged_records = Throw (Raised ValueError) /\
  preprocess [Demo.unlabelled; Demo.ragged] = Throw (KeyError "label").
Proof. repeat split. Qed.

Lemma preprocess_first_failure_witness :
  forallb accepted (firstn 2 Demo.records) = true /\
  (item_features Demo.ragged = Some [1; 2; 3; 4]%float /\
   length [1; 2; 3; 4]%float mod 3 <> 0) /\
  preprocess (firstn 2 Demo.records ++ Demo.ragged :: skipn 2 Demo.records)
  = Throw (Raised ValueError).
Proof.
  split; [reflexivity|]. split; [split; [reflexivity | simpl; discriminate]|].
  apply (proj1 (proj2 (preprocess_first_failure
                         (firstn 2 Demo.records) Demo.ragged (skipn 2 Demo.records)
                         eq_refl)) [1; 2; 3; 4]%float);
    [reflexivity | simpl; discriminate].
Defined.

End PreprocessFacts.

(** ** More about the vocabulary *)

Module VocabularyMore.
Import LabelVocabulary LabelEncoder VocabularyFacts.

Lemma lex_lt_asym a b : lex_lt a b -> lex_lt b a -> False.
Proof.
  intros H1 H2. apply (lex_lt_irrefl a). exact (String_as_OT.lt_trans _ _ _ H1 H2).
Qed.

(** Two strictly increasing lists with the same members are the same
    list. *)
Lemma sorted_same_members (l1 : list string) : forall l2,
  StronglySorted lex_lt l1 -> StronglySorted lex_lt l2 ->
  (forall s, In s l1 <-> In s l2) -> l1 = l2.
Proof.
  induction l1 as [|a l1 IH]; intros l2 S1 S2 H.
  - destruct l2 as [|b l2]; [reflexivity|].
    exfalso. apply (proj2 (H b)). left. reflexivity.
  - destruct l2 as [|b l2].
    + exfalso. apply (proj1 (H a)). left. reflexivity.
    + inversion S1 as [|? ? S1' F1]; subst. inversion S2 as [|? ? S2' F2]; subst.
      rewrite Forall_forall in F1, F2.
      assert (E : a = b).
      { destruct (proj1 (H a) (or_introl eq_refl)) as [E | Ha]; [auto|].
        destruct (proj2 (H b) (or_introl eq_refl)) as [E | Hb]; [auto|].
        exfalso. exact (lex_lt_asym a b (F1 b Hb) (F2 a Ha)). }
      subst b. f_equal. apply IH; try assumption.
      intros s. split; intros Hs.
      * destruct (proj1 (H s) (or_intror Hs)) as [<- | Hs']; [|exact Hs'].
        exfalso. exact (lex_lt_irrefl a (F1 a Hs)).
      * destruct (proj2 (H s) (or_intror Hs)) as [<- | Hs']; [|exact Hs'].
        exfalso. exact (lex_lt_irrefl a (F2 a Hs)).
Qed.

(** X10: the vocabulary depends on which labels occur, not on their order
    or on how often they occur. *)
Theorem fit_same_labels (labels1 labels2 : list string) :
  (forall s, In s labels1 <-> In s labels2) -> fit labels1 = fit labels2.
Proof.
  intros H. apply sorted_same_members; try apply fit_sorted.
  intros s. rewrite !fit_in. apply H.
Qed.

Lemma fit_same_labels_witness :
  (forall s, In s Samples.gestures <-> In s ["no"; "hello"; "yes"]%string) /\
  fit Samples.gestures = fit ["no"; "hello"; "yes"]%string.
Proof.
  assert (H : forall s, In s Samples.gestures <-> In s ["no"; "hello"; "yes"]%string)
    by (intros s; simpl; tauto).
  split; [exact H|].
  apply (fit_same_labels Samples.gestures ["no"; "hello"; "yes"]%string H).
Defined.

Lemma index_of_none classes label :
  index_of label classes = None <-> ~ In label classes.
Proof.
  induction classes as [|c rest IH]; simpl; [tauto|].
  destruct (String.eqb_spec label c) as [-> | Hne].
  - split; [discriminate | intros H; exfalso; apply H; left; reflexivity].
  - destruct (index_of label rest) as [i|]; simpl.
    + split; [discriminate|]. intros H. exfalso. apply H. right.
      destruct (in_dec string_dec label rest) as [Hin | Hout]; [exact Hin|].
      apply IH in Hout. discriminate Hout.
    + split; [|reflexivity]. intros _ [E | Hin]; [congruence|].
      exact (proj1 IH eq_refl Hin).
Qed.

(** A label is encoded exactly when it was among the fitted labels;
    any other label raises, whatever the fitted labels were. *)
Lemma encode_known_labels (labels : list string) (label : string) :
  (In label labels <-> exists i, encode (fit labels) label = Ok i) /\
  (~ In label labels <-> encode (fit labels) label = Raise UnknownLabelError).
Proof.
  pose proof (index_of_none (fit labels) label) as H.
  rewrite fit_in in H. unfold encode.
  destruct (index_of label (fit labels)) as [i|] eqn:E.
  - assert (Hin : In label labels).
    { apply fit_in. eapply nth_error_In, index_of_nth, E. }
    split; split.
    + intros _. exists i. reflexivity.
    + intros _. exact Hin.
    + intros Hout. contradiction.
    + discriminate.
  - split; split.
    + intros Hin. exfalso. exact (proj1 H eq_refl Hin).
    + intros (i & Hi). discriminate Hi.
    + reflexivity.
    + intros _. apply H. reflexivity.
Qed.

Lemma transform_ok classes : forall labels,
  Forall (fun l => In l classes) labels ->
  exists codes, transform classes labels = Ok codes.
Proof.
  induction labels as [|l labels IH]; intros H; simpl.
  - exists []. reflexivity.
  - inversion H as [|? ? Hl Hrest]; subst.
    destruct (IH Hrest) as (cs & Hcs). unfold encode.
    destruct (index_of l classes) as [i|] eqn:E.
    + simpl. rewrite Hcs. simpl. eexists. reflexivity.
    + exfalso. exact (proj1 (index_of_none classes l) E Hl).
Qed.

Lemma transform_codes classes : forall labels codes,
  transform classes labels = Ok codes ->
  Forall2 (fun l c => nth_error classes c = Some l) labels codes.
Proof.
  induction labels as [|l labels IH]; intros codes H; simpl in H.
  - injection H as <-. constructor.
  - unfold encode in H. destruct (index_of l classes) as [i|] eqn:E; [|discriminate].
    simpl in H. destruct (transform classes labels) as [cs|e]; [|discriminate].
    simpl in H. injection H as <-. constructor; [|apply IH; reflexivity].
    apply index_of_nth, E.
Qed.

Lemma codes_cover (classes : list string) c l : NoDup classes ->
  nth_error classes c = Some l -> forall labels codes,
  Forall2 (fun l c => nth_error classes c = Some l) labels codes ->
  In l labels -> In c codes.
Proof.
  intros D E labels codes F. induction F as [|l' c' y' codes' Hh Ht IH]; intros Hin.
  - destruct Hin.
  - destruct (string_dec l l') as [<- | Hne].
    + left. pose proof (nth_index_of _ D _ _ E) as E1.
      pose proof (nth_index_of _ D _ _ Hh) as E2. congruence.
    + right. destruct Hin as [Heq | Hin]; [congruence|]. apply IH, Hin.
Qed.

Lemma codes_below (classes : list string) c : forall labels codes,
  Forall2 (fun l c => nth_error classes c = Some l) labels codes ->
  In c codes -> c < length classes.
Proof.
  intros labels codes F. induction F as [|l' c' y' codes' Hh Ht IH]; intros Hin.
  - destruct Hin.
  - destruct Hin as [<- | Hin]; [|apply IH, Hin].
    apply nth_error_Some. congruence.
Qed.

Lemma transform_fit (y : list string) :
  exists codes, transform (fit y) y = Ok codes.
Proof.
  apply transform_ok. apply Forall_forall. intros l H. apply fit_in, H.
Qed.

(** X11: on the labels of the dataset [fit_transform] cannot fail; it gives
    one code per label, each below the number of classes, decoding the
    codes gives the labels back in their order, and every class id from 0
    to C-1 is the code of some label. *)
Theorem fit_transform_codes (y : list string) :
  exists codes,
    fit_transform y = (fit y, Ok codes) /\
    length codes = length y /\
    Forall2 (fun l c => c < length (fit y) /\ decode (fit y) c = Ok l) y codes /\
    (forall c, c < length (fit y) <-> In c codes).
Proof.
  destruct (transform_fit y) as (codes & H). exists codes.
  pose proof (transform_codes _ _ _ H) as F.
  assert (F' : Forall2 (fun l c => c < length (fit y) /\ decode (fit y) c = Ok l) y codes).
  { eapply Forall2_impl; [|exact F]. intros l c E. split.
    - apply nth_error_Some. congruence.
    - unfold decode. rewrite E. reflexivity. }
  split; [unfold fit_transform; rewrite H; reflexivity|].
  split; [symmetry; eapply Forall2_length, F|]. split; [exact F'|].
  intros c. split.
  - intros Hc. destruct (nth_error (fit y) c) as [l|] eqn:E.
    + assert (Hin : In l y) by (apply fit_in; eapply nth_error_In, E).
      exact (codes_cover _ _ _ (sorted_NoDup _ (fit_sorted y)) E _ _ F Hin).
    + apply nth_error_None in E. lia.
  - exact (codes_below _ _ _ _ F).
Qed.

End VocabularyMore.

(** ** The script *)

Module ScriptFacts.
Import Normalizer Preprocess LabelVocabulary LabelEncoder Script.
Import NormalizerFacts VocabularyFacts VocabularyMore PreprocessFacts.

Open Scope string_scope.
Open Scope list_scope.

Lemma print_all_files log : forall w,
  files (fold_left (fun w line => print line w) log w) = files w.
Proof.
  induction log as [|line log IH]; intros w; simpl; [reflexivity|].
  rewrite IH. reflexivity.
Qed.

Lemma print_all_dirs log : forall w,
  dirs (fold_left (fun w line => print line w) log w) = dirs w.
Proof.
  induction log as [|line log IH]; intros w; simpl; [reflexivity|].
  rewrite IH. reflexivity.
Qed.

Lemma print_all_stdout log : forall w,
  stdout (fold_left (fun w line => print line w) log w) = stdout w ++ log.
Proof.
  induction log as [|line log IH]; intros w; simpl.
  - rewrite app_nil_r. reflexivity.
  - rewrite IH. simpl. rewrite <- app_assoc. reflexivity.
Qed.

Lemma read_print_all log w path :
  read (fold_left (fun w line => print line w) log w) path = read w path.
Proof. unfold read. rewrite print_all_files. reflexivity. Qed.

Lemma write_inv path content w w' :
  write path content w = inr w' ->
  is_dir w path = false /\
  w' = {| dirs := dirs w; files := (path, content) :: files w; stdout := stdout w |}.
Proof.
  unfold write. destruct (is_dir w path); [discriminate|].
  intros H. injection H as <-. split; reflexivity.
Qed.

Lemma read_write path content w w' p :
  write path content w = inr w' ->
  read w' p = if String.eqb p path then Some content else read w p.
Proof.
  intros H. apply write_inv in H. destruct H as (_ & ->). reflexivity.
Qed.

Lemma mkdir_files path w : files (mkdir path w) = files w.
Proof. unfold mkdir. destruct (is_dir w path); reflexivity. Qed.

Lemma mkdir_stdout path w : stdout (mkdir path w) = stdout w.
Proof. unfold mkdir. destruct (is_dir w path); reflexivity. Qed.

Lemma mkdir_is_dir path w : is_dir (mkdir path w) path = true.
Proof.
  unfold mkdir. destruct (is_dir w path) eqn:E; [exact E|].
  unfold is_dir. simpl. rewrite String.eqb_refl. reflexivity.
Qed.

Lemma mkdir_keeps path w d : is_dir w d = true -> is_dir (mkdir path w) d = true.
Proof.
  unfold mkdir. destruct (is_dir w path); [auto|].
  unfold is_dir. simpl. intros ->. apply Bool.orb_true_r.
Qed.

Lemma makedirs_inv w w' :
  makedirs_model_dir w = inr w' ->
  files w' = files w /\ stdout w' = stdout w /\
  is_dir w' "public" = true /\ is_dir w' MODEL_DIR = true /\
  (forall d, is_dir w d = true -> is_dir w' d = true).
Proof.
  unfold makedirs_model_dir.
  destruct (is_file w "public"); [discriminate|].
  destruct (is_file w MODEL_DIR); [discriminate|].
  intros H. injection H as <-.
  rewrite !mkdir_files, !mkdir_stdout. repeat split.
  - apply mkdir_keeps, mkdir_is_dir.
  - apply mkdir_is_dir.
  - intros d Hd. apply mkdir_keeps, mkdir_keeps, Hd.
Qed.

Ltac same_files :=
  cbn [fst snd print files]; rewrite ?print_all_files;
  cbn [print files]; reflexivity.

Section Library.

Variable ndarray partitions model : Type.
Variable json_load : string -> result (list (sample float)).
Variable np_array : list (list float) -> result ndarray.
Variable show_classes : list string -> string.
Variable json_dumps : list string -> string.
Variable train_test_split : ndarray -> list nat -> result partitions.
Variable build_model : nat -> result model.
Variable model_fit : model -> partitions -> list string * result model.
Variable model_save : model -> result string.

Local Notation "'the_script'" :=
  (main ndarray partitions model json_load np_array show_classes json_dumps
        train_test_split build_model model_fit model_save).
Local Notation "'the_rest'" :=
  (encode_train_save ndarray partitions model np_array show_classes json_dumps
        train_test_split build_model model_fit model_save).

(** X12: with no data file the script creates the model directory, prints
    two lines and exits with status 0; no file is written and no library
    is called. *)
Theorem missing_data_file (w : world) :
  is_file w "public" = false -> is_file w MODEL_DIR = false ->
  is_file w DATA_FILE = false -> is_dir w DATA_FILE = false ->
  exists w',
    the_script w = (Exited 0, w') /\
    files w' = files w /\
    is_dir w' MODEL_DIR = true /\
    stdout w' = stdout w ++ ["Loading initial_batch.json...";
                             "ERROR: initial_batch.json not found!"].
Proof.
  intros Hp Hm Hf Hd. unfold main.
  destruct (makedirs_model_dir w) as [e|w1] eqn:M.
  { unfold makedirs_model_dir in M. rewrite Hp, Hm in M. discriminate M. }
  destruct (makedirs_inv _ _ M) as (F & O & _ & D & _).
  assert (R : read (print ("Loading " ++ DATA_FILE ++ "...")%string w1) DATA_FILE = None).
  { unfold read. simpl files. rewrite F. unfold is_file, read in Hf.
    destruct (lookup DATA_FILE (files w)); [discriminate Hf | reflexivity]. }
  rewrite R.
  assert (D' : is_dir (print ("Loading " ++ DATA_FILE ++ "...")%string w1) DATA_FILE = false).
  { unfold is_dir. simpl dirs. unfold makedirs_model_dir in M.
    rewrite Hp, Hm in M. injection M as <-.
    unfold mkdir. unfold is_dir in Hd.
    destruct (is_dir w "public"); simpl;
      match goal with |- context [is_dir ?a ?b] => destruct (is_dir a b) end;
      simpl; exact Hd. }
  rewrite D'. eexists. split; [reflexivity|]. simpl.
  rewrite F, O, <- app_assoc. repeat split. exact D.
Qed.

(** X13: a record the loop rejects ends the run with the loop's exception
    after two printed lines; no file has been written by then. *)
Theorem malformed_dataset_writes_nothing (w : world) text raw_data r :
  is_file w "public" = false -> is_file w MODEL_DIR = false ->
  read w DATA_FILE = Some text -> json_load text = Ok raw_data ->
  preprocess raw_data = Throw r ->
  exists w',
    the_script w = (Uncaught (FromLoop r), w') /\
    files w' = files w /\
    stdout w' = stdout w ++ ["Loading initial_batch.json...";
                             "Preprocessing samples..."].
Proof.
  intros Hp Hm R J P. unfold main.
  destruct (makedirs_model_dir w) as [e|w1] eqn:M.
  { unfold makedirs_model_dir in M. rewrite Hp, Hm in M. discriminate M. }
  destruct (makedirs_inv _ _ M) as (F & O & _).
  assert (R1 : read (print ("Loading " ++ DATA_FILE ++ "...")%string w1) DATA_FILE
               = Some text).
  { unfold read. simpl files. rewrite F. exact R. }
  rewrite R1, J, P. eexists. split; [reflexivity|]. simpl.
  rewrite F, O, <- app_assoc. split; reflexivity.
Qed.

Lemma the_rest_cases X y w :
  (fst (the_rest X y w) <> Finished /\
   (files (snd (the_rest X y w)) = files w \/
    files (snd (the_rest X y w)) =
      ("public/model/classes.json", json_dumps (fit y)) :: files w)) \/
  (fst (the_rest X y w) = Finished /\
   exists Xa codes parts m log m' h5,
     np_array X = Ok Xa /\ transform (fit y) y = Ok codes /\
     train_test_split Xa codes = Ok parts /\
     build_model (length (fit y)) = Ok m /\
     model_fit m parts = (log, Ok m') /\ model_save m' = Ok h5 /\
     files (snd (the_rest X y w)) =
       ("model_v2.h5", h5) :: ("public/model/classes.json", json_dumps (fit y))
       :: files w /\
     dirs (snd (the_rest X y w)) = dirs w /\
     stdout (snd (the_rest X y w)) =
       stdout w ++ [("Classes found: " ++ show_classes (fit y))%string;
                    (LF ++ "Starting training...")%string]
                ++ log ++ [(LF ++ "Saving to model_v2.h5...")%string;
                           "Done! Now run the conversion command."]).
Proof.
  unfold encode_train_save, fit_transform.
  destruct (np_array X) as [Xa|e] eqn:A;
    [|left; split; [discriminate | left; reflexivity]].
  destruct (transform (fit y) y) as [codes|e] eqn:T;
    [|left; split; [discriminate | left; reflexivity]].
  destruct (write _ _ _) as [e|w1] eqn:W1;
    [left; split; [discriminate | left; reflexivity]|].
  apply write_inv in W1. destruct W1 as (_ & ->).
  destruct (train_test_split Xa codes) as [parts|e] eqn:S;
    [|left; split; [discriminate | right; reflexivity]].
  destruct (build_model _) as [m|e] eqn:B;
    [|left; split; [discriminate | right; reflexivity]].
  destruct (model_fit m parts) as [log [m'|e]] eqn:MF;
    [|left; split; [discriminate | right; same_files]].
  destruct (model_save m') as [h5|e] eqn:MS;
    [|left; split; [discriminate | right; same_files]].
  destruct (write "model_v2.h5" h5 _) as [e|w2] eqn:W2.
  { left. split; [discriminate|]. right. same_files. }
  apply write_inv in W2. destruct W2 as (_ & ->).
  right. split; [reflexivity|].
  exists Xa, codes, parts, m, log, m', h5.
  do 6 (split; [first [reflexivity | assumption]|]). split; [|split].
  - same_files.
  - cbn [fst snd print dirs]. rewrite print_all_dirs. reflexivity.
  - cbn [fst snd print stdout]. rewrite print_all_stdout.
    cbn [print stdout]. rewrite <- !app_assoc. reflexivity.
Qed.

Lemma the_script_cases (w : world) :
  the_script w = (fst (the_script w), snd (the_script w)) /\
  ((files (snd (the_script w)) = files w /\ fst (the_script w) <> Finished) \/
   exists w1 text raw_data X y,
     makedirs_model_dir w = inr w1 /\
     read w DATA_FILE = Some text /\ json_load text = Ok raw_data /\
     preprocess raw_data = Return (X, y) /\
     the_script w =
       the_rest X y (print "Preprocessing samples..."
                           (print "Loading initial_batch.json..." w1))).
Proof.
  split; [destruct (the_script w); reflexivity|].
  unfold main.
  destruct (makedirs_model_dir w) as [e|w1] eqn:M.
  { left. split; [reflexivity | discriminate]. }
  destruct (makedirs_inv _ _ M) as (F & O & _).
  replace (read (print ("Loading " ++ DATA_FILE ++ "...")%string w1) DATA_FILE)
    with (read w DATA_FILE) by (unfold read; simpl files; rewrite F; reflexivity).
  destruct (read w DATA_FILE) as [text|] eqn:R.
  2:{ left. destruct (is_dir _ _); simpl; split; auto; discriminate. }
  destruct (json_load text) as [raw_data|e] eqn:J.
  2:{ left. simpl. split; [exact F | discriminate]. }
  destruct (preprocess raw_data) as [[X y]|r] eqn:P.
  2:{ left. simpl. split; [exact F | discriminate]. }
  right. exists w1, text, raw_data, X, y. repeat split; assumption.
Qed.

(** X14: which files a run can touch.  Whatever the data and the libraries
    do, a run leaves every file other than [public/model/classes.json]
    and [model_v2.h5] as it was, the data file among them, and a run that
    does not reach the last line leaves [model_v2.h5] as it was. *)
Theorem files_touched (w : world) :
  (forall path, path <> "public/model/classes.json" -> path <> "model_v2.h5" ->
     read (snd (the_script w)) path = read w path) /\
  read (snd (the_script w)) DATA_FILE = read w DATA_FILE /\
  (fst (the_script w) <> Finished ->
     read (snd (the_script w)) "model_v2.h5" = read w "model_v2.h5").
Proof.
  assert (G : forall path, path <> "public/model/classes.json" ->
     (path <> "model_v2.h5" \/ fst (the_script w) <> Finished) ->
     read (snd (the_script w)) path = read w path).
  { intros path Hc Hm.
    destruct (the_script_cases w) as (_ & [(F & _) | (w1 & text & raw & X & y & M & _ & _ & _ & E)]).
    { unfold read. rewrite F. reflexivity. }
    rewrite E in *. destruct (makedirs_inv _ _ M) as (F & _).
    apply String.eqb_neq in Hc.
    destruct (the_rest_cases X y (print "Preprocessing samples..."
                (print "Loading initial_batch.json..." w1)))
      as [(NF & [H | H]) | (Fin & _ & _ & _ & _ & _ & _ & h5 & _ & _ & _ & _ & _ & _ & H & _)];
      unfold read; rewrite H; simpl; rewrite ?Hc, ?F; try reflexivity.
    destruct Hm as [Hm | Hm]; [|contradiction].
    apply String.eqb_neq in Hm. rewrite Hm. reflexivity. }
  split; [|split].
  - intros path Hc Hm. apply G; auto.
  - apply G; [|left]; intros E; discriminate E.
  - intros NF. apply G; [|right; exact NF]. intros E; discriminate E.
Qed.

(** X15: a run that reaches the last line has written both artifacts: the
    vocabulary file holds the sorted distinct labels of the data file, the
    model has one output per such label, was trained on the split of the
    encoded rows and is saved in the working directory, not in the model
    directory. *)
Theorem finished_run (w : world) :
  fst (the_script w) = Finished ->
  exists text raw_data X y Xa codes parts m log m' h5,
    read w DATA_FILE = Some text /\ json_load text = Ok raw_data /\
    preprocess raw_data = Return (X, y) /\
    np_array X = Ok Xa /\ fit_transform y = (fit y, Ok codes) /\
    train_test_split Xa codes = Ok parts /\
    build_model (length (fit y)) = Ok m /\
    model_fit m parts = (log, Ok m') /\ model_save m' = Ok h5 /\
    read (snd (the_script w)) "public/model/classes.json" = Some (json_dumps (fit y)) /\
    read (snd (the_script w)) "model_v2.h5" = Some h5 /\
    read (snd (the_script w)) "public/model/model_v2.h5" = read w "public/model/model_v2.h5" /\
    is_dir (snd (the_script w)) MODEL_DIR = true.
Proof.
  intros Fin.
  destruct (the_script_cases w) as (_ & [(_ & NF) | (w1 & text & raw & X & y & M & R & J & P & E)]);
    [contradiction|].
  rewrite E in *. destruct (makedirs_inv _ _ M) as (F & _ & _ & D & _).
  destruct (the_rest_cases X y (print "Preprocessing samples..."
              (print "Loading initial_batch.json..." w1)))
    as [(NF & _) | (_ & Xa & codes & parts & m & log & m' & h5 & A & T & S & B & MF & MS & H & HD & _)];
    [contradiction|].
  exists text, raw, X, y, Xa, codes, parts, m, log, m', h5.
  repeat (split; [assumption|]).
  split; [unfold fit_transform; rewrite T; reflexivity|].
  repeat (split; [assumption|]).
  unfold read, is_dir. rewrite H, HD. simpl. rewrite F. repeat split. exact D.
Qed.

(** X16: the vocabulary file is written before the split is tried.  When
    [train_test_split] raises, as it does for a class with one sample, the
    run ends with that exception, [public/model/classes.json] already
    holds the new vocabulary, and [model_v2.h5] is as it was. *)
Theorem split_failure_keeps_vocabulary (w : world) text raw_data X y Xa codes e :
  is_file w "public" = false -> is_file w MODEL_DIR = false ->
  is_dir w "public/model/classes.json" = false ->
  read w DATA_FILE = Some text -> json_load text = Ok raw_data ->
  preprocess raw_data = Return (X, y) -> np_array X = Ok Xa ->
  transform (fit y) y = Ok codes -> train_test_split Xa codes = Raise e ->
  fst (the_script w) = Uncaught (FromLibrary e) /\
  read (snd (the_script w)) "public/model/classes.json" = Some (json_dumps (fit y)) /\
  read (snd (the_script w)) "model_v2.h5" = read w "model_v2.h5".
Proof.
  intros Hp Hm Hd R J P A T S. unfold main.
  destruct (makedirs_model_dir w) as [e'|w1] eqn:M.
  { unfold makedirs_model_dir in M. rewrite Hp, Hm in M. discriminate M. }
  destruct (makedirs_inv _ _ M) as (F & _).
  assert (R1 : read (print ("Loading " ++ DATA_FILE ++ "...")%string w1) DATA_FILE
               = Some text).
  { unfold read. simpl files. rewrite F. exact R. }
  rewrite R1, J, P. unfold encode_train_save, fit_transform. rewrite A, T.
  assert (D : is_dir w1 "public/model/classes.json" = false).
  { unfold makedirs_model_dir in M. rewrite Hp, Hm in M. injection M as <-.
    unfold mkdir. unfold is_dir in *.
    destruct (existsb (String.eqb "public") (dirs w)); simpl;
      match goal with |- context [if ?b then _ else _] => destruct b end;
      simpl; exact Hd. }
  unfold write. simpl is_dir. unfold is_dir in *. simpl dirs. simpl app. rewrite D.
  rewrite S. simpl. unfold read. simpl. rewrite F. repeat split.
Qed.


End Library.

(** The four ways a run ends, on the sample data. *)
Example demo_runs :
  fst (Demo.script Demo.empty_directory) = Exited 0 /\
  fst (Demo.script (Demo.with_data "ragged")) = Uncaught (FromLoop (Raised ValueError)) /\
  fst (Demo.script (Demo.with_data "lonely"))
    = Uncaught (FromLibrary InsufficientSamplesError) /\
  fst (Demo.script (Demo.with_data "records")) = Finished /\
  files (snd (Demo.script (Demo.with_data "records"))) =
    [("model_v2.h5", "two outputs"); ("public/model/classes.json", "no,yes");
     ("initial_batch.json", "records"); ("model_v2.h5", "old model")].
Proof. repeat split. Qed.

Lemma missing_data_file_witness :
  (is_file Demo.empty_directory "public" = false /\
   is_file Demo.empty_directory MODEL_DIR = false /\
   is_file Demo.empty_directory DATA_FILE = false /\
   is_dir Demo.empty_directory DATA_FILE = false) /\
  exists w',
    Demo.script Demo.empty_directory = (Exited 0, w') /\
    files w' = files Demo.empty_directory /\
    is_dir w' MODEL_DIR = true /\
    stdout w' = stdout Demo.empty_directory
                ++ ["Loading initial_batch.json...";
                    "ERROR: initial_batch.json not found!"].
Proof.
  split; [repeat split|].
  apply (missing_data_file Demo.ndarray Demo.partitions Demo.model Demo.json_load
           Demo.np_array Demo.show_classes Demo.json_dumps Demo.train_test_split
           Demo.build_model Demo.model_fit Demo.model_save Demo.empty_directory);
    reflexivity.
Defined.

Lemma malformed_dataset_writes_nothing_witness :
  (is_file (Demo.with_data "ragged") "public" = false /\
   is_file (Demo.with_data "ragged") MODEL_DIR = false /\
   read (Demo.with_data "ragged") DATA_FILE = Some "ragged" /\
   Demo.json_load "ragged" = Ok Demo.ragged_records /\
   preprocess Demo.ragged_records = Throw (Raised ValueError)) /\
  exists w',
    Demo.script (Demo.with_data "ragged") = (Uncaught (FromLoop (Raised ValueError)), w') /\
    files w' = files (Demo.with_data "ragged") /\
    stdout w' = stdout (Demo.with_data "ragged")
                ++ ["Loading initial_batch.json..."; "Preprocessing samples..."].
Proof.
  split; [repeat split|].
  apply (malformed_dataset_writes_nothing
           Demo.ndarray Demo.partitions Demo.model Demo.json_load
           Demo.np_array Demo.show_classes Demo.json_dumps Demo.train_test_split
           Demo.build_model Demo.model_fit Demo.model_save
           (Demo.with_data "ragged") "ragged" Demo.ragged_records (Raised ValueError));
    reflexivity.
Defined.

Lemma finished_run_witness :
  fst (Demo.script (Demo.with_data "records")) = Finished /\
  exists text raw_data X y Xa codes parts m log m' h5,
    read (Demo.with_data "records") DATA_FILE = Some text /\
    Demo.json_load text = Ok raw_data /\
    preprocess raw_data = Return (X, y) /\
    Demo.np_array X = Ok Xa /\ fit_transform y = (fit y, Ok codes) /\
    Demo.train_test_split Xa codes = Ok parts /\
    Demo.build_model (length (fit y)) = Ok m /\
    Demo.model_fit m parts = (log, Ok m') /\ Demo.model_save m' = Ok h5 /\
    read (snd (Demo.script (Demo.with_data "records"))) "public/model/classes.json"
      = Some (Demo.json_dumps (fit y)) /\
    read (snd (Demo.script (Demo.with_data "records"))) "model_v2.h5" = Some h5 /\
    read (snd (Demo.script (Demo.with_data "records"))) "public/model/model_v2.h5"
      = read (Demo.with_data "records") "public/model/model_v2.h5" /\
    is_dir (snd (Demo.script (Demo.with_data "records"))) MODEL_DIR = true.
Proof.
  split; [reflexivity|].
  apply (finished_run Demo.ndarray Demo.partitions Demo.model Demo.json_load
           Demo.np_array Demo.show_classes Demo.json_dumps Demo.train_test_split
           Demo.build_model Demo.model_fit Demo.model_save (Demo.with_data "records")).
  reflexivity.
Defined.

Lemma split_failure_keeps_vocabulary_witness :
  (is_file (Demo.with_data "lonely") "public" = false /\
   is_file (Demo.with_data "lonely") MODEL_DIR = false /\
   is_dir (Demo.with_data "lonely") "public/model/classes.json" = false /\
   read (Demo.with_data "lonely") DATA_FILE = Some "lonely" /\
   Demo.json_load "lonely" = Ok Demo.lonely_records /\
   preprocess Demo.lonely_records =
     Return (Demo.rows_of Demo.lonely_records, ["yes"; "no"; "yes"; "no"; "maybe"]) /\
   Demo.np_array (Demo.rows_of Demo.lonely_records)
     = Ok (Demo.rows_of Demo.lonely_records) /\
   transform (fit ["yes"; "no"; "yes"; "no"; "maybe"]) ["yes"; "no"; "yes"; "no"; "maybe"]
     = Ok [2; 1; 2; 1; 0]%nat /\
   Demo.train_test_split (Demo.rows_of Demo.lonely_records) [2; 1; 2; 1; 0]%nat
     = Raise InsufficientSamplesError) /\
  fst (Demo.script (Demo.with_data "lonely"))
    = Uncaught (FromLibrary InsufficientSamplesError) /\
  read (snd (Demo.script (Demo.with_data "lonely"))) "public/model/classes.json"
    = Some (Demo.json_dumps (fit ["yes"; "no"; "yes"; "no"; "maybe"])) /\
  read (snd (Demo.script (Demo.with_data "lonely"))) "model_v2.h5"
    = read (Demo.with_data "lonely") "model_v2.h5".
Proof.
  split; [repeat split|].
  apply (split_failure_keeps_vocabulary
           Demo.ndarray Demo.partitions Demo.model Demo.json_load
           Demo.np_array Demo.show_classes Demo.json_dumps Demo.train_test_split
           Demo.build_model Demo.model_fit Demo.model_save
           (Demo.with_data "lonely") "lonely" Demo.lonely_records
           (Demo.rows_of Demo.lonely_records) ["yes"; "no"; "yes"; "no"; "maybe"]
           (Demo.rows_of Demo.lonely_records) [2; 1; 2; 1; 0]%nat
           InsufficientSamplesError);
    reflexivity.
Defined.

Close Scope string_scope.

End ScriptFacts.

(** ** More about the split *)

Module SplitMore.
Import SplitFacts.

Lemma positions_NoDup c (y : list nat) : NoDup (positions c y).
Proof. unfold positions. apply NoDup_filter, seq_NoDup. Qed.

Lemma classes_NoDup (y : list nat) : NoDup (classes y).
Proof. unfold classes. apply NoDup_filter, seq_NoDup. Qed.

Lemma in_class_rows (y cs : list nat) i :
  In i (concat (map (fun c => positions c y) cs)) <->
  i < length y /\ In (nth i y 0) cs.
Proof.
  rewrite in_concat. split.
  - intros (l & Hl & Hi). apply in_map_iff in Hl as (c & <- & Hc).
    apply positions_in in Hi as (Hlt & <-). auto.
  - intros (Hlt & Hc). exists (positions (nth i y 0) y). split.
    + apply in_map_iff. exists (nth i y 0). auto.
    + apply positions_in. auto.
Qed.

Lemma class_rows_NoDup (y cs : list nat) :
  NoDup cs -> NoDup (concat (map (fun c => positions c y) cs)).
Proof.
  induction 1 as [|c cs Hc _ IH]; simpl; [constructor|].
  apply NoDup_app; [apply positions_NoDup | exact IH |].
  intros i Hi Hin. apply positions_in in Hi as (_ & <-).
  apply in_class_rows in Hin as (_ & Hin). contradiction.
Qed.

Lemma perm_regroup3 {B : Type} (f s r tr te re : list B) :
  Permutation ((f ++ tr) ++ (s ++ te) ++ (r ++ re))
              ((f ++ s ++ r) ++ (tr ++ te ++ re)).
Proof.
  rewrite <- !app_assoc. apply Permutation_app_head.
  rewrite Permutation_app_swap_app. apply Permutation_app_head.
  rewrite (app_assoc tr te). rewrite (Permutation_app_swap_app (tr ++ te) r).
  rewrite <- app_assoc. reflexivity.
Qed.

Lemma select_combine {B C : Type} (rows : list B) (labels : list C) (idx : list nat) :
  length rows = length labels ->
  combine (select rows idx) (select labels idx) = select (combine rows labels) idx.
Proof.
  intros L. induction idx as [|i idx IH]; [reflexivity|].
  unfold select in *. simpl flat_map.
  destruct (nth_error rows i) as [x|] eqn:Ex.
  - destruct (nth_error labels i) as [l|] eqn:El.
    + assert (E : nth_error (combine rows labels) i = Some (x, l)).
      { clear IH. revert rows labels L Ex El.
        induction i as [|i IHi]; intros [|r rows] [|c labels] L Ex El;
          simpl in *; try discriminate.
        - congruence.
        - apply IHi; [lia | assumption ..]. }
      rewrite E. simpl. rewrite IH. reflexivity.
    + apply nth_error_None in El.
      assert (i < length rows) by (apply nth_error_Some; congruence). lia.
  - apply nth_error_None in Ex.
    destruct (nth_error labels i) as [l|] eqn:El.
    + assert (i < length labels) by (apply nth_error_Some; congruence). lia.
    + assert (E : nth_error (combine rows labels) i = None).
      { apply nth_error_None. rewrite length_combine. lia. }
      rewrite E. simpl. exact IH.
Qed.

Section AnyGenerator.

Variable rng : Type.
Variable RandomState : Z -> rng.
Variable rng_permutation : nat -> rng -> list nat * rng.
Variable A : Type.

Hypothesis rng_permutation_perm :
  forall n g, Permutation (fst (rng_permutation n g)) (seq 0 n).

Lemma draw_classes_rows (L : list (list nat)) : forall n_i t_i g train test g',
  draw_classes rng rng_permutation L n_i t_i g = (train, test, g') ->
  exists rest, Permutation (train ++ test ++ rest) (concat L).
Proof.
  induction L as [|idx L IH]; intros n_i t_i g train test g' H.
  - simpl in H. injection H as <- <- _. exists []. reflexivity.
  - destruct n_i as [|n n_i];
      [simpl in H; injection H as <- <- _; exists (concat (idx :: L)); reflexivity|].
    destruct t_i as [|t t_i];
      [simpl in H; injection H as <- <- _; exists (concat (idx :: L)); reflexivity|].
    simpl in H.
    pose proof (rng_permutation_perm (length idx) g) as Q.
    destruct (rng_permutation (length idx) g) as [p g1]. simpl in Q.
    apply take_perm in Q.
    destruct (draw_classes rng rng_permutation L n_i t_i g1) as [[tr te] g2] eqn:D.
    injection H as <- <- _.
    destruct (IH _ _ _ _ _ _ D) as (re & P).
    exists (skipn t (skipn n (take idx p)) ++ re).
    rewrite perm_regroup3, !firstn_skipn, P, Q. reflexivity.
Qed.

(** X17: whenever the split succeeds, for any class sizes and any
    holdout fraction, no row is in both partitions or twice in one, and
    every returned feature vector still stands beside its own label: the
    pairs of the train rows and of the test rows are rows of the
    dataset, picked by row numbers without repetition. *)
Theorem split_rows_aligned (features : list A) (labels : list nat)
        (holdout_fraction : Q) (seed : Z) (ambient : rng)
        (X_train : list A) (y_train : list nat) (X_test : list A) (y_test : list nat) :
  length features = length labels ->
  fst (split rng RandomState rng_permutation A features labels
         holdout_fraction seed ambient) = Ok (X_train, y_train, X_test, y_test) ->
  exists train test,
    NoDup (train ++ test) /\
    Forall (fun i => i < length labels) (train ++ test) /\
    combine X_train y_train = select (combine features labels) train /\
    combine X_test y_test = select (combine features labels) test /\
    length X_train = length train /\ length y_train = length train /\
    length X_test = length test /\ length y_test = length test.
Proof.
  intros L H. unfold split in H. simpl fst in H.
  destruct (split_indices rng RandomState rng_permutation labels _ _ seed)
    as [[train test]|e] eqn:S; [|discriminate].
  injection H as <- <- <- <-.
  unfold split_indices in S.
  destruct (existsb _ (class_counts labels)); [discriminate|].
  destruct (approximate_mode rng rng_permutation (class_counts labels) _ _)
    as [n_i g1].
  destruct (approximate_mode rng rng_permutation _ _ g1) as [t_i g2].
  destruct (draw_classes rng rng_permutation (class_indices labels) n_i t_i g2)
    as [[tr te] g3] eqn:D.
  destruct (shuffle rng rng_permutation tr g3) as [train' g4] eqn:S1.
  destruct (shuffle rng rng_permutation te g4) as [test' g5] eqn:S2.
  injection S as <- <-.
  apply (shuffle_perm rng rng_permutation rng_permutation_perm) in S1, S2.
  destruct (draw_classes_rows _ _ _ _ _ _ _ D) as (rest & P).
  assert (P' : Permutation ((train' ++ test') ++ rest) (concat (class_indices labels))).
  { rewrite S1, S2, <- app_assoc. exact P. }
  assert (N : NoDup (train' ++ test')).
  { apply (NoDup_app_remove_r _ rest).
    apply (Permutation_NoDup (Permutation_sym P')).
    apply class_rows_NoDup, classes_NoDup. }
  assert (R : forall i, In i (train' ++ test') -> i < length labels).
  { intros i Hi.
    assert (Hin : In i (concat (class_indices labels))).
    { apply (Permutation_in _ P'), in_or_app. left. exact Hi. }
    apply in_class_rows in Hin. tauto. }
  exists train', test'. split; [exact N|]. split; [apply Forall_forall, R|].
  split; [apply select_combine, L|]. split; [apply select_combine, L|].
  repeat split; apply select_length; intros i Hi; rewrite ?L; apply R, in_or_app; auto.
Qed.

End AnyGenerator.

Lemma split_rows_aligned_witness :
  (length [10; 11; 12; 13; 14; 15] = length [0; 1; 0; 1; 1; 0] /\
   fst (split Lcg.state Lcg.seed Lcg.permutation nat
          [10; 11; 12; 13; 14; 15] [0; 1; 0; 1; 1; 0] (1 # 5) 42 7%Z)
   = Ok ([10; 12; 11; 13], [0; 0; 1; 1], [14; 15], [1; 0])) /\
  exists train test,
    NoDup (train ++ test) /\
    Forall (fun i => i < length [0; 1; 0; 1; 1; 0]) (train ++ test) /\
    combine [10; 12; 11; 13] [0; 0; 1; 1] =
      select (combine [10; 11; 12; 13; 14; 15] [0; 1; 0; 1; 1; 0]) train /\
    combine [14; 15] [1; 0] =
      select (combine [10; 11; 12; 13; 14; 15] [0; 1; 0; 1; 1; 0]) test /\
    length [10; 12; 11; 13] = length train /\ length [0; 0; 1; 1] = length train /\
    length [14; 15] = length test /\ length [1; 0] = length test.
Proof.
  split; [split; reflexivity|].
  apply (split_rows_aligned Lcg.state Lcg.seed Lcg.permutation nat
           lcg_permutation_perm [10; 11; 12; 13; 14; 15] [0; 1; 0; 1; 1; 0]
           (1 # 5) 42 7%Z); reflexivity.
Defined.

End SplitMore.
